(** * Completion model providers of the Flexpilot extension

    A shallow embedding of the three completion adapters

      - [src/providers/llamacpp.ts]  (module [LlamaCpp])
      - [src/providers/deepseek.ts]  (module [DeepSeek])
      - [src/providers/ollama.ts]    (module [Ollama])

    Every asynchronous method becomes a computation in the monad [M]: it
    reads an environment ([World]: what the network, the user and the
    collaborating modules answer), threads a [State] (the configuration
    store, the requests that reached a backend, the trace of calls made) and
    either resolves ([Ok]) or rejects ([Throw]).

    Typing discipline.  Values that originate in TypeScript code keep their
    declared types.  Response bodies come from the network and are cast
    ([as T]) without any run-time check, so they are untyped [json] values
    accessed with JavaScript's property semantics; whatever is read from
    them stays a [jsval] wherever it flows.  A [string] is a text in UTF-8. *)

From Stdlib Require Import QArith Ascii String.
From stdpp Require Import gmap strings list pretty.

Local Open Scope string_scope.
Local Open Scope list_scope.

Set Warnings "-register-all".

(** ** JavaScript values *)

(** A parsed JSON document.  [JObj] lists an object's own properties (keys
    are those of one object, hence distinct). *)
Inductive json : Type :=
  | JNull
  | JBool (b : bool)
  | JNum (q : Q)
  | JStr (s : string)
  | JArr (l : list json)
  | JObj (o : list (string * json)).

(** A JavaScript value as the adapters see it: [None] is [undefined]. *)
Definition jsval : Type := option json.
Definition undefined : jsval := None.

Record Error := mkError { name : string; message : string }.

(** [new Error(msg)] *)
Definition new_Error (msg : string) : Error := mkError "Error" msg.
Definition TypeError (msg : string) : Error := mkError "TypeError" msg.

(** A settled promise (or a finished synchronous call). *)
Inductive Outcome (A : Type) : Type :=
  | Ok (a : A)
  | Throw (e : Error).
Arguments Ok {A} a.
Arguments Throw {A} e.

Definition LF : string := String (ascii_of_nat 10) "".

(** [l.find(([k']) => k' === k)] on the property list of an object. *)
Fixpoint assoc (k : string) (o : list (string * json)) : jsval :=
  match o with
  | [] => undefined
  | (k', v) :: o' => if String.eqb k k' then Some v else assoc k o'
  end.

(** [v !== undefined] *)
Definition is_defined (v : jsval) : bool :=
  match v with
  | Some _ => true
  | None => false
  end.

(** ToBoolean, the test behind [if (v)], [!v] and [||]. *)
Definition truthy (v : jsval) : bool :=
  match v with
  | None | Some JNull => false
  | Some (JBool b) => b
  | Some (JNum q) => negb (Qeq_bool q 0)
  | Some (JStr s) => negb (String.eqb s "")
  | Some (JArr _) | Some (JObj _) => true
  end.

(** Property read [v.k], for the property names the adapters use (none of
    them is a built-in property of a string, number, boolean or array, so a
    primitive or an array yields [undefined]).  Reading from [undefined] or
    [null] raises a [TypeError]. *)
Definition prop (v : jsval) (k : string) : Outcome jsval :=
  match v with
  | None => Throw (TypeError ("Cannot read properties of undefined (reading '" +:+ k +:+ "')"))
  | Some JNull => Throw (TypeError ("Cannot read properties of null (reading '" +:+ k +:+ "')"))
  | Some (JObj o) => Ok (assoc k o)
  | Some _ => Ok undefined
  end.

(** Optional chaining [v?.k]. *)
Definition prop_opt (v : jsval) (k : string) : jsval :=
  match v with
  | Some (JObj o) => assoc k o
  | _ => undefined
  end.

(** Optional element access [v?.[0]]. *)
Definition first_opt (v : jsval) : jsval :=
  match v with
  | Some (JArr (x :: _)) => Some x
  | Some (JStr (String c _)) => Some (JStr (String c ""))
  | Some (JObj o) => assoc "0" o
  | _ => undefined
  end.

(** [v ?? d] *)
Definition coalesce (v : jsval) (d : json) : json :=
  match v with
  | None | Some JNull => d
  | Some x => x
  end.

(** Calling the string method [output.substring(0, 50)]: only a string has
    it, any other non-nullish value raises "substring is not a function".
    The result is the receiver, which is what the callers keep. *)
Definition call_substring (v : json) : Outcome string :=
  match v with
  | JStr s => Ok s
  | _ => Throw (TypeError "output.substring is not a function")
  end.

(** [v?.toFixed(2)]: skipped on a nullish receiver, defined on numbers, a
    [TypeError] on anything else.  The formatted text is only logged. *)
Definition call_toFixed_opt (v : jsval) : Outcome unit :=
  match v with
  | None | Some JNull | Some (JNum _) => Ok tt
  | Some _ => Throw (TypeError "toFixed is not a function")
  end.

(** Whether a value read from JSON can be turned into a primitive, as a
    template literal, a division or a call of its [toString] has to.  An
    object of a JSON document inherits [toString] and [valueOf] unless it
    has a property of that name, and such a property is never a function:
    with an own [toString] every conversion fails (the inherited or the own
    [valueOf] does not give a primitive either); without one the inherited
    [toString] answers.  An array is joined, which converts each element
    that is not [null]. *)
Fixpoint has_text (v : json) : bool :=
  match v with
  | JArr l => forallb has_text l
  | JObj o => match assoc "toString" o with
              | None => true
              | Some _ => false
              end
  | _ => true
  end.

(** The conversion of [v] inside a template literal [`${v}`], in the
    division [v / 1_000_000] and in the call [v?.toString()]; the text
    itself only reaches a log line. *)
Definition to_text (v : jsval) : Outcome unit :=
  match v with
  | None => Ok tt
  | Some x =>
      if has_text x then Ok tt
      else Throw (TypeError "Cannot convert object to primitive value")
  end.

(** Evaluating [`${tokens.length}`] for a log line: reading [length] from
    [undefined] or [null] raises; an array or a string has a number there,
    a number or a boolean has nothing, an object has its own property of
    that name, which is then turned into text. *)
Definition read_length (v : jsval) : Outcome unit :=
  match v with
  | None => Throw (TypeError "Cannot read properties of undefined (reading 'length')")
  | Some JNull => Throw (TypeError "Cannot read properties of null (reading 'length')")
  | Some (JObj o) => to_text (assoc "length" o)
  | Some _ => Ok tt
  end.

(** A byte that continues a character in UTF-8. *)
Definition is_continuation (c : ascii) : bool :=
  Nat.leb 128 (nat_of_ascii c) && Nat.leb (nat_of_ascii c) 191.

(** The characters of a text, one string each. *)
Fixpoint code_points (l : list ascii) : list string :=
  match l with
  | [] => []
  | c :: l' =>
      match l' with
      | d :: _ =>
          if is_continuation d then
            match code_points l' with
            | s :: rest => String c s :: rest
            | [] => [String c ""]
            end
          else String c "" :: code_points l'
      | [] => [String c ""]
      end
  end.

(** The values a [for (const x of v)] loop visits; a string is visited
    character by character. *)
Definition iterate (v : jsval) : Outcome (list json) :=
  match v with
  | Some (JArr l) => Ok l
  | Some (JStr s) => Ok (map JStr (code_points (list_ascii_of_string s)))
  | _ => Throw (TypeError "modelsList is not iterable")
  end.

(** Key equality of a [Map] on values read from JSON. *)
Fixpoint json_eqb (a b : json) : bool :=
  match a, b with
  | JNull, JNull => true
  | JBool x, JBool y => Bool.eqb x y
  | JNum x, JNum y => Qeq_bool x y
  | JStr x, JStr y => String.eqb x y
  | JArr x, JArr y =>
      (fix all2 (x y : list json) : bool :=
         match x, y with
         | [], [] => true
         | a :: x', b :: y' => json_eqb a b && all2 x' y'
         | _, _ => false
         end) x y
  | JObj x, JObj y =>
      (fix all2 (x y : list (string * json)) : bool :=
         match x, y with
         | [], [] => true
         | (k, a) :: x', (k', b) :: y' => String.eqb k k' && json_eqb a b && all2 x' y'
         | _, _ => false
         end) x y
  | _, _ => false
  end.

Definition jsval_eqb (a b : jsval) : bool :=
  match a, b with
  | None, None => true
  | Some x, Some y => json_eqb x y
  | _, _ => false
  end.

(** [JSON.stringify] of an object literal: properties whose value is
    [undefined] are left out.  The request body is kept as the document
    that the text denotes. *)
Definition object (fields : list (string * jsval)) : json :=
  JObj (omap (fun '(k, v) => match v with Some x => Some (k, x) | None => None end) fields).

Definition JInt (z : Z) : json := JNum (inject_Z z).

(** The white space and line terminators of ECMAScript, by their UTF-8
    bytes: TAB, LF, VT, FF, CR and SP in one byte; U+00A0 in two; U+1680,
    U+2000 to U+200A, U+2028, U+2029, U+202F, U+205F, U+3000 and U+FEFF in
    three. *)
Definition is_space (a : nat) : bool :=
  (Nat.leb 9 a && Nat.leb a 13) || Nat.eqb a 32.

Definition is_space2 (a b : nat) : bool :=
  Nat.eqb a 194 && Nat.eqb b 160.

Definition is_space3 (a b c : nat) : bool :=
  (Nat.eqb a 225 && Nat.eqb b 154 && Nat.eqb c 128) ||
  (Nat.eqb a 226 && Nat.eqb b 128 &&
     ((Nat.leb 128 c && Nat.leb c 138) || Nat.eqb c 168 || Nat.eqb c 169 || Nat.eqb c 175)) ||
  (Nat.eqb a 226 && Nat.eqb b 129 && Nat.eqb c 159) ||
  (Nat.eqb a 227 && Nat.eqb b 128 && Nat.eqb c 128) ||
  (Nat.eqb a 239 && Nat.eqb b 187 && Nat.eqb c 191).

(** Drop the white space at the head of a list of bytes; with [back] the
    list is a text read from its end, so the bytes of a character come in
    reverse. *)
Fixpoint drop_spaces (back : bool) (l : list ascii) : list ascii :=
  match l with
  | [] => []
  | a :: l1 =>
      if is_space (nat_of_ascii a) then drop_spaces back l1
      else
        match l1 with
        | [] => l
        | b :: l2 =>
            if (if back then is_space2 (nat_of_ascii b) (nat_of_ascii a)
                else is_space2 (nat_of_ascii a) (nat_of_ascii b))
            then drop_spaces back l2
            else
              match l2 with
              | [] => l
              | c :: l3 =>
                  if (if back
                      then is_space3 (nat_of_ascii c) (nat_of_ascii b) (nat_of_ascii a)
                      else is_space3 (nat_of_ascii a) (nat_of_ascii b) (nat_of_ascii c))
                  then drop_spaces back l3
                  else l
              end
        end
  end.

(** [String.prototype.trim] *)
Definition trim (s : string) : string :=
  string_of_list_ascii
    (rev (drop_spaces true (rev (drop_spaces false (list_ascii_of_string s))))).

(** [hay.includes(needle)] *)
Fixpoint starts_with (needle hay : string) : bool :=
  match needle, hay with
  | "", _ => true
  | String a n', String b h' => Ascii.eqb a b && starts_with n' h'
  | String _ _, "" => false
  end.

Fixpoint includes (hay needle : string) : bool :=
  starts_with needle hay ||
  match hay with
  | "" => false
  | String _ h' => includes h' needle
  end.

(** ** Platform and collaborator interfaces *)

(** [AbortSignal]: which signal it is, whether it has fired by the time it
    is handed to a transport, and the reason it was fired with
    ([signal.reason]; [abort()] without an argument gives a [DOMException]
    named "AbortError"). *)
Record AbortSignal := { signal_id : nat; aborted : bool; reason : Error }.

Definition is_aborted (s : option AbortSignal) : bool :=
  match s with
  | Some a => aborted a
  | None => false
  end.

(** The arguments of a [fetch(url, init)] call.  [body] is the document whose
    [JSON.stringify] text is sent. *)
Record Request := {
  url : string;
  method : string;
  headers : list (string * string);
  body : option json;
  signal : option AbortSignal
}.

(** A [Response]: [body_text] is what [response.text()] settles to and
    [body_json] what [response.json()] settles to (it rejects when the body
    is not JSON). *)
Record Response := {
  status : nat;
  statusText : string;
  body_text : Outcome string;
  body_json : Outcome json
}.

(** [response.ok] *)
Definition ok (r : Response) : bool := Nat.leb 200 (status r) && Nat.leb (status r) 299.

(** A tokenizer of [@flexpilot-ai/tokenizers]: [encode(text, addSpecial)] and
    [decode(tokens, skipSpecial)], pure functions of their arguments. *)
Record Tokenizer := {
  tk_encode : string -> bool -> list Z;
  tk_decode : list Z -> bool -> string
}.

(** Modelled from the spec: [ICompletionModelConfig] is declared in
    [src/interfaces], which is not among the sources; its fields are those
    of the specification's ModelConfig record (nickname, providerId, model,
    contextWindow).  [baseUrl] and [apiKey] are the fields the three
    adapters add to it.  One store holds the records of all providers, and
    [storage.models.get<T>] casts without checking, so a record read by the
    DeepSeek adapter may lack [apiKey].  [model] is declared a string; the
    Ollama configuration stores there the label read from the server's
    answer. *)
Record ModelConfig := {
  nickname : string;
  cfg_providerId : string;
  model : jsval;
  contextWindow : Z;
  baseUrl : string;
  apiKey : option string
}.

(** Modelled from the spec: [ICompletionModelInvokeOptions] is declared in
    [src/interfaces], which is not among the sources; it is the
    specification's invocation request (prefix, suffix, maxTokens, stop,
    optional temperature, cancellation signal) in the shape the adapters
    read it ([options.messages.prefix], [options.signal]), with every field
    that an adapter guards against ([?.], [??]) optional. *)
Record Messages := { prefix : option string; suffix : option string }.

Record InvokeOptions := {
  messages : option Messages;
  maxTokens : option Z;
  stop : option (list string);
  temperature : option Q;
  opt_signal : option AbortSignal
}.

(** The options of [new OpenAI({apiKey, baseURL})]. *)
Record ClientOptions := { client_apiKey : option string; client_baseURL : string }.

(** The options of an input box.  [ib_validateInput] is the prompt's
    [validateInput]: the message shown for a value the box refuses, nothing
    for a value it accepts; a prompt without one accepts every value. *)
Record InputBoxOptions := {
  ib_title : string;
  ib_value : string;
  ib_placeHolder : string;
  ib_prompt : string;
  ib_validateInput : string -> option string
}.

(** [validateInput] left out of the options. *)
Definition no_validation (value : string) : option string := None.

(** [vscode.QuickPickItem] *)
Record QuickPickItem := { label : jsval }.

(** An entry of the model metadata catalog. *)
Record Metadata := { md_contextWindow : Z }.

Inductive Level := Debug | Info | Warn.

(** What an adapter does to its surroundings, in the order it does it.  Log
    lines are recorded by level; their text is not modelled. *)
Inductive Event : Type :=
  | ELog (l : Level)
  | EStorageGet (nick : string)
  | EStorageSet (nick : string) (c : ModelConfig)
  | EFetch (r : Request)
  | ECompletionsCreate (client : ClientOptions) (params : json) (sig : option AbortSignal)
  | ETokenizersGet (m : jsval)
  | ETokenizersDownload (m : jsval)
  | EInputBox (o : InputBoxOptions)
  | EQuickPick (items : list QuickPickItem)
  | EProgress (msg : string).

(** The environment.
    - [http wire r]: what the network answers to request [r] when the
      backends have so far received [wire]; [Throw] is a network failure.
    - [OpenAI_constructor client]: whether [new OpenAI(client)] succeeds
      (the library refuses to build a client without a key).
    - [openai wire client params]: what the OpenAI client library does with
      a [completions.create] call that is not aborted up front: the requests
      it puts on the wire (it has its own retry policy) and what its promise
      settles to, the parsed completion object on success.
    - [showInputBox], [showQuickPick]: the user's answer to a prompt;
      [None] is a dismissed prompt.  The editor only lets a value through
      that the prompt's [ib_validateInput] accepts, and only an item that
      was on offer.
    - [Tokenizers_get], [Tokenizers_download]: the tokenizer cache of
      [src/tokenizers], which is not part of the three adapters.
    - [getCompletionModelMetadata]: the catalog of [src/utilities], a pure
      lookup on the value it is given. *)
Record World := {
  http : list Request -> Request -> Outcome Response;
  OpenAI_constructor : ClientOptions -> Outcome unit;
  openai : list Request -> ClientOptions -> json -> list Request * Outcome json;
  showInputBox : InputBoxOptions -> option string;
  showQuickPick : list QuickPickItem -> option QuickPickItem;
  Tokenizers_get : jsval -> Outcome Tokenizer;
  Tokenizers_download : jsval -> Outcome unit;
  getCompletionModelMetadata : jsval -> option Metadata
}.

(** The mutable surroundings: the persisted configuration store, the
    requests the backends have received, and the trace of calls. *)
Record State := {
  store : gmap string ModelConfig;
  wire : list Request;
  trace : list Event
}.

(** ** The monad of asynchronous methods *)

Definition M (A : Type) : Type := World -> State -> Outcome A * State.

Definition ret {A} (a : A) : M A := fun _ s => (Ok a, s).

Definition bind {A B} (m : M A) (k : A -> M B) : M B :=
  fun w s =>
    match m w s with
    | (Ok a, s') => k a w s'
    | (Throw e, s') => (Throw e, s')
    end.

Definition throw {A} (e : Error) : M A := fun _ s => (Throw e, s).

(** A synchronous computation that may raise. *)
Definition lift {A} (o : Outcome A) : M A := fun _ s => (o, s).

Notation "x <- m ;; k" := (bind m (fun x => k))
  (at level 100, m at next level, right associativity,
   format "'[v' x  <-  m  ;;  '/' k ']'").
Notation "m ;;; k" := (bind m (fun _ => k))
  (at level 100, right associativity,
   format "'[v' m  ;;;  '/' k ']'").

Definition emit (e : Event) : M unit :=
  fun _ s => (Ok tt, {| store := store s; wire := wire s; trace := trace s ++ [e] |}).

(** [logger.debug], [logger.info], [logger.warn] of [src/logger]: a line of
    diagnostics and nothing else. *)
Definition log (l : Level) : M unit := emit (ELog l).

Definition when (b : bool) (m : M unit) : M unit := if b then m else ret tt.

(** Modelled from the spec: the configuration store of [src/storage] is not
    among the sources; [get(nickname)] gives the stored configuration or
    nothing.
    [storage.models.get(nickname)] *)
Definition storage_get (nick : string) : M (option ModelConfig) :=
  emit (EStorageGet nick) ;;;
  fun _ s => (Ok (store s !! nick), s).

(** Modelled from the spec: [set(nickname, config)] stores the
    configuration under the nickname, replacing what was there.
    [storage.models.set(nickname, config)] *)
Definition storage_set (nick : string) (c : ModelConfig) : M unit :=
  emit (EStorageSet nick c) ;;;
  fun _ s => (Ok tt, {| store := <[nick := c]> (store s); wire := wire s; trace := trace s |}).

(** The reason of [abort()] without an argument. *)
Definition AbortError : Error := mkError "AbortError" "This operation was aborted".

(** [new APIUserAbortError()] of the OpenAI client library, whose [name] is
    the inherited "Error". *)
Definition APIUserAbortError : Error := mkError "Error" "Request was aborted.".

Definition abort_reason (s : option AbortSignal) : Error :=
  match s with
  | Some a => reason a
  | None => AbortError
  end.

(** The platform's [fetch].  A request whose signal has already fired is
    rejected with the reason of the signal before anything is sent (Fetch
    standard, the first step of the fetch method); otherwise the request
    reaches the backend and the promise settles to the network's answer. *)
Definition fetch (r : Request) : M Response :=
  emit (EFetch r) ;;;
  fun w s =>
    if is_aborted (signal r) then (Throw (abort_reason (signal r)), s)
    else (http w (wire s) r,
          {| store := store s; wire := wire s ++ [r]; trace := trace s |}).

(** [new OpenAI({apiKey, baseURL})] *)
Definition new_OpenAI (client : ClientOptions) : M ClientOptions :=
  fun w s =>
    match OpenAI_constructor w client with
    | Ok _ => (Ok client, s)
    | Throw e => (Throw e, s)
    end.

(** [openai.completions.create(params, {signal})] of the OpenAI client
    library: a signal that has already fired raises [APIUserAbortError]
    before any request is made; everything else is the library's business
    and is left to the environment. *)
Definition completions_create (client : ClientOptions) (params : json)
    (sig : option AbortSignal) : M json :=
  emit (ECompletionsCreate client params sig) ;;;
  fun w s =>
    if is_aborted sig then (Throw APIUserAbortError, s)
    else let '(sent, res) := openai w (wire s) client params in
         (res, {| store := store s; wire := wire s ++ sent; trace := trace s |}).

(** [vscode.window.showInputBox(options)] *)
Definition window_showInputBox (o : InputBoxOptions) : M (option string) :=
  emit (EInputBox o) ;;;
  fun w s => (Ok (showInputBox w o), s).

(** [vscode.window.showQuickPick(items, options)] *)
Definition window_showQuickPick (items : list QuickPickItem) : M (option QuickPickItem) :=
  emit (EQuickPick items) ;;;
  fun w s => (Ok (showQuickPick w items), s).

(** [progress.report({message})] inside [vscode.window.withProgress], which
    runs its task and settles as the task does. *)
Definition progress_report (msg : string) : M unit := emit (EProgress msg).

(** Modelled from the spec: the tokenizer cache of [src/tokenizers] is not
    among the sources; [get] gives the handle for a model id, the same
    handle for the same id, or fails.
    [Tokenizers.get(model)] *)
Definition Tokenizers_get_ (m : jsval) : M Tokenizer :=
  emit (ETokenizersGet m) ;;;
  fun w s => (Tokenizers_get w m, s).

(** Modelled from the spec: the explicit pre-fetch of the tokenizer cache.
    [Tokenizers.download(model)] *)
Definition Tokenizers_download_ (m : jsval) : M unit :=
  emit (ETokenizersDownload m) ;;;
  fun w s => (Tokenizers_download w m, s).

(** Modelled from the spec: the metadata catalog of [src/utilities] is not
    among the sources; a synchronous pure lookup.
    [getCompletionModelMetadata(model)] *)
Definition lookup_metadata (m : jsval) : M (option Metadata) :=
  fun w s => (Ok (getCompletionModelMetadata w m), s).

(** Running a method from a given state. *)
Definition result {A} (m : M A) (w : World) (s : State) : Outcome A := fst (m w s).
Definition final {A} (m : M A) (w : World) (s : State) : State := snd (m w s).

(** The requests handed to [fetch], in order. *)
Definition fetches (t : list Event) : list Request :=
  omap (fun e => match e with EFetch r => Some r | _ => None end) t.

(** The configurations written to the store, in order. *)
Definition sets (t : list Event) : list (string * ModelConfig) :=
  omap (fun e => match e with EStorageSet n c => Some (n, c) | _ => None end) t.

(** ** The provider contract *)

(** An instance of [ICompletionModelProvider]: the configuration read at
    construction and the tokenizer handle that [initialize] assigns
    ([private tokenizer!: Tokenizer], unassigned until then). *)
Record Provider := { config : ModelConfig; tokenizer : option Tokenizer }.

Definition json_headers : list (string * string) := [("Content-Type", "application/json")].

Definition JStrings (l : list string) : json := JArr (map JStr l).

(** [this.tokenizer.encode(text, false)] *)
Definition tokenizer_encode (this : Provider) (text : string) : Outcome (list Z) :=
  match tokenizer this with
  | Some tk => Ok (tk_encode tk text false)
  | None => Throw (TypeError "Cannot read properties of undefined (reading 'encode')")
  end.

(** [this.tokenizer.decode(tokens, false)] *)
Definition tokenizer_decode (this : Provider) (tokens : list Z) : Outcome string :=
  match tokenizer this with
  | Some tk => Ok (tk_decode tk tokens false)
  | None => Throw (TypeError "Cannot read properties of undefined (reading 'decode')")
  end.

(** ** llama.cpp: [src/providers/llamacpp.ts] *)

Module LlamaCpp.

Definition providerId : string := "llama.cpp-completion".

Definition DEFAULT_HELP_PROMPT : string :=
  "Click [here](https://docs.flexpilot.ai/model-providers/llamacpp.html) for more information".

(** [constructor(nickname)].  Modelled from the spec: [super(nickname)]
    runs the constructor of the base class in [src/interfaces], which is
    not among the sources; construction has no effect beyond the store
    lookup, so it contributes none. *)
Definition constructor (nickname : string) : M Provider :=
  log Debug ;;;
  config <- storage_get nickname ;;
  match config with
  | None => throw (new_Error ("Model configuration not found for " +:+ nickname))
  | Some config =>
      log Info ;;;
      ret {| config := config; tokenizer := None |}
  end.

Definition tokenize_request (this : Provider) (text : string) : Request :=
  {| url := baseUrl (config this) +:+ "/tokenize";
     method := "POST";
     headers := json_headers;
     body := Some (object [("content", Some (JStr text)); ("add_special", Some (JBool false))]);
     signal := None |}.

(** [encode(text)]: resolves to [result.tokens], whatever the server put
    there. *)
Definition encode (this : Provider) (text : string) : M jsval :=
  log Debug ;;;
  response <- fetch (tokenize_request this text) ;;
  if negb (ok response) then
    throw (new_Error ("Failed to tokenize text: " +:+ pretty (status response)
                      +:+ " " +:+ statusText response))
  else
    result <- lift (body_json response) ;;
    lift (prop (Some result) "tokens").

Definition detokenize_request (this : Provider) (tokens : jsval) : Request :=
  {| url := baseUrl (config this) +:+ "/detokenize";
     method := "POST";
     headers := json_headers;
     body := Some (object [("tokens", tokens)]);
     signal := None |}.

(** [decode(tokens)].  The argument is declared an array of numbers; it is
    a [jsval] here because the tokens a caller has come from [encode]. *)
Definition decode (this : Provider) (tokens : jsval) : M jsval :=
  lift (read_length tokens) ;;;
  log Debug ;;;
  response <- fetch (detokenize_request this tokens) ;;
  if negb (ok response) then
    throw (new_Error ("Failed to detokenize tokens: " +:+ pretty (status response)
                      +:+ " " +:+ statusText response))
  else
    result <- lift (body_json response) ;;
    lift (prop (Some result) "content").

Definition initialize (this : Provider) : M Provider :=
  log Info ;;;
  ret this.

Definition defaultBaseUrl : string := "http://localhost:8012".

Definition configure (nickname : string) : M unit :=
  log Info ;;;
  config <- storage_get nickname ;;
  baseUrl <- window_showInputBox
    {| ib_title := "Flexpilot: Enter the base URL for llama.cpp API";
       ib_value := match config with Some c => baseUrl c | None => defaultBaseUrl end;
       ib_placeHolder := "e.g., " +:+ defaultBaseUrl;
       ib_prompt := DEFAULT_HELP_PROMPT;
       ib_validateInput := no_validation |} ;;
  match baseUrl with
  | None => throw (new_Error "User cancelled base URL input")
  | Some baseUrl =>
      let baseUrl := trim baseUrl in
      progress_report "Testing connection credentials" ;;;
      log Debug ;;;
      response <- fetch
        {| url := baseUrl +:+ "/completion";
           method := "POST";
           headers := json_headers;
           body := Some (object [("prompt", Some (JStr "Hello"));
                                 ("n_predict", Some (JInt 3));
                                 ("stream", Some (JBool false))]);
           signal := None |} ;;
      if negb (ok response) then
        throw (new_Error ("Connection test failed: " +:+ statusText response))
      else
        log Info ;;;
        log Info ;;;
        storage_set nickname
          {| contextWindow := 32768;
             baseUrl := baseUrl;
             model := Some (JStr "");
             nickname := nickname;
             cfg_providerId := providerId;
             apiKey := None |} ;;;
        log Info
  end.

(** The object literal given to [JSON.stringify] in [invoke]. *)
Definition infill_body (options : InvokeOptions) : json :=
  object
    [("input_prefix", Some (JStr (default "" (messages options ≫= prefix))));
     ("input_suffix", Some (JStr (default "" (messages options ≫= suffix))));
     ("n_predict", Some (JInt (default 100%Z (maxTokens options))));
     ("stop", Some (JStrings (default [] (stop options))));
     ("stream", Some (JBool false))].

Definition infill_request (this : Provider) (options : InvokeOptions) : Request :=
  {| url := baseUrl (config this) +:+ "/infill";
     method := "POST";
     headers := json_headers;
     body := Some (infill_body options);
     signal := opt_signal options |}.

Definition invoke (this : Provider) (options : InvokeOptions) : M string :=
  log Debug ;;;
  response <- fetch (infill_request this options) ;;
  if negb (ok response) then
    let error := match body_text response with
                 | Ok t => t
                 | Throw _ => "Unknown error"
                 end in
    throw (new_Error ("Failed to invoke llama.cpp model: " +:+ pretty (status response)
                      +:+ " " +:+ statusText response +:+ LF +:+ error))
  else
    result <- lift (body_json response) ;;
    truncated <- lift (prop (Some result) "truncated") ;;
    when (truthy truncated) (log Warn) ;;;
    timings <- lift (prop (Some result) "timings") ;;
    when (truthy timings)
      (* the three substitutions of the log line, in order *)
      (predicted_n <- lift (prop timings "predicted_n") ;;
       lift (to_text predicted_n) ;;;
       predicted_ms <- lift (prop timings "predicted_ms") ;;
       lift (to_text predicted_ms) ;;;
       predicted_per_second <- lift (prop timings "predicted_per_second") ;;
       lift (call_toFixed_opt predicted_per_second) ;;;
       log Debug) ;;;
    content <- lift (prop (Some result) "content") ;;
    output <- lift (call_substring (coalesce content (JStr ""))) ;;
    log Debug ;;;
    ret output.

End LlamaCpp.

(** ** DeepSeek: [src/providers/deepseek.ts] *)

Module DeepSeek.

Definition providerId : string := "deepseek-completion".

Definition DEFAULT_HELP_PROMPT : string :=
  "Click [here](https://docs.flexpilot.ai/model-providers/deepseek.html) for more information".

(** [(value) => !value?.trim() ? "API key cannot be empty" : undefined] *)
Definition validateApiKey (value : string) : option string :=
  if String.eqb (trim value) "" then Some "API key cannot be empty" else None.

Definition getApiKeyInput (apiKey : option string) : M string :=
  log Debug ;;;
  newApiKey <- window_showInputBox
    {| ib_title := "Flexpilot: Enter your DeepSeek API key";
       ib_value := default "" apiKey;
       ib_placeHolder := "e.g., sk-mFzPtn4QYHOSJ...";
       ib_prompt := DEFAULT_HELP_PROMPT;
       ib_validateInput := validateApiKey |} ;;
  match newApiKey with
  | None => throw (new_Error "User cancelled DeepSeek API key input")
  | Some newApiKey =>
      log Debug ;;;
      ret (trim newApiKey)
  end.

Definition constructor (nickname : string) : M Provider :=
  log Debug ;;;
  config <- storage_get nickname ;;
  match config with
  | None => throw (new_Error ("Model configuration not found for " +:+ nickname))
  | Some config =>
      log Info ;;;
      ret {| config := config; tokenizer := None |}
  end.

Definition initialize (this : Provider) : M Provider :=
  tk <- Tokenizers_get_ (model (config this)) ;;
  ret {| config := config this; tokenizer := Some tk |}.

Definition encode (this : Provider) (text : string) : M (list Z) :=
  log Debug ;;;
  lift (tokenizer_encode this text).

Definition decode (this : Provider) (tokens : list Z) : M string :=
  log Debug ;;;
  lift (tokenizer_decode this tokens).

Definition client_of (this : Provider) : ClientOptions :=
  {| client_apiKey := apiKey (config this); client_baseURL := baseUrl (config this) |}.

(** The parameter object of [openai.completions.create] in [invoke]. *)
Definition completion_params (this : Provider) (options : InvokeOptions) (m : Messages) : json :=
  object
    [("prompt", JStr <$> prefix m);
     ("model", model (config this));
     ("max_tokens", JInt <$> maxTokens options);
     ("stop", JStrings <$> stop options);
     ("suffix", JStr <$> suffix m);
     ("temperature", JNum <$> temperature options)].

Definition invoke (this : Provider) (options : InvokeOptions) : M string :=
  log Debug ;;;
  openai <- new_OpenAI (client_of this) ;;
  m <- lift (match messages options with
             | Some m => Ok m
             | None => Throw (TypeError "Cannot read properties of undefined (reading 'prefix')")
             end) ;;
  response <- completions_create openai (completion_params this options m)
                (opt_signal options) ;;
  choices <- lift (prop (Some response) "choices") ;;
  output <- lift (call_substring
                    (coalesce (prop_opt (first_opt choices) "text") (JStr ""))) ;;
  log Debug ;;;
  ret output.

Definition defaultBaseUrl : string := "https://api.deepseek.com/beta".

Definition configure (nickname : string) : M unit :=
  log Info ;;;
  config <- storage_get nickname ;;
  apiKey <- getApiKeyInput (config ≫= apiKey) ;;
  baseUrl <- window_showInputBox
    {| ib_title := "Flexpilot: Enter the base URL for DeepSeek API";
       ib_value := match config with Some c => baseUrl c | None => defaultBaseUrl end;
       ib_placeHolder := "e.g., " +:+ defaultBaseUrl;
       ib_prompt := DEFAULT_HELP_PROMPT;
       ib_validateInput := no_validation |} ;;
  match baseUrl with
  | None => throw (new_Error "User cancelled base URL input")
  | Some baseUrl =>
      let baseUrl := trim baseUrl in
      let model := "deepseek-chat" in
      log Info ;;;
      Tokenizers_download_ (Some (JStr model)) ;;;
      progress_report "Testing connection credentials" ;;;
      log Debug ;;;
      openai <- new_OpenAI {| client_apiKey := Some apiKey; client_baseURL := baseUrl |} ;;
      completions_create openai
        (object [("model", Some (JStr model));
                 ("max_tokens", Some (JInt 3));
                 ("prompt", Some (JStr "How"));
                 ("suffix", Some (JStr "are you?"))])
        None ;;;
      log Info ;;;
      metadata <- lookup_metadata (Some (JStr model)) ;;
      match metadata with
      | None => throw (new_Error "Unable to find model metadata")
      | Some metadata =>
          log Info ;;;
          storage_set nickname
            {| contextWindow := md_contextWindow metadata;
               baseUrl := baseUrl;
               apiKey := Some apiKey;
               model := Some (JStr model);
               nickname := nickname;
               cfg_providerId := providerId |} ;;;
          log Info
      end
  end.

End DeepSeek.

(** ** Ollama: [src/providers/ollama.ts] *)

Module Ollama.

Definition providerId : string := "ollama-completion".

Definition DEFAULT_HELP_PROMPT : string :=
  "Click [here](https://docs.flexpilot.ai/model-providers/ollama.html) for more information".

Definition constructor (nickname : string) : M Provider :=
  log Info ;;;
  config <- storage_get nickname ;;
  match config with
  | None => throw (new_Error ("Model configuration not found for " +:+ nickname))
  | Some config =>
      log Debug ;;;
      ret {| config := config; tokenizer := None |}
  end.

Definition encode (this : Provider) (text : string) : M (list Z) :=
  log Debug ;;;
  lift (tokenizer_encode this text).

Definition decode (this : Provider) (tokens : list Z) : M string :=
  log Debug ;;;
  lift (tokenizer_decode this tokens).

Definition defaultBaseUrl : string := "http://localhost:11434".

(** [contextWindowMap.get(key)] on the entries set so far, latest first. *)
Fixpoint map_get (m : list (jsval * Z)) (key : jsval) : option Z :=
  match m with
  | [] => None
  | (k, v) :: m' => if jsval_eqb k key then Some v else map_get m' key
  end.

(** The loop [for (const model of modelsList)] that fills
    [modelPickUpItems] and [contextWindowMap]. *)
Fixpoint scan_models (modelsList : list json) (modelPickUpItems : list QuickPickItem)
    (contextWindowMap : list (jsval * Z)) : M (list QuickPickItem * list (jsval * Z)) :=
  match modelsList with
  | [] => ret (modelPickUpItems, contextWindowMap)
  | model :: rest =>
      name <- lift (prop (Some model) "name") ;;
      lift (to_text name) ;;;
      log Debug ;;;
      metadata <- lookup_metadata name ;;
      match metadata with
      | Some metadata =>
          scan_models rest (modelPickUpItems ++ [{| label := name |}])
            (if Z.eqb (md_contextWindow metadata) 0 then contextWindowMap
             else (name, md_contextWindow metadata) :: contextWindowMap)
      | None => scan_models rest modelPickUpItems contextWindowMap
      end
  end.

Definition tags_request (baseUrl : string) : Request :=
  {| url := baseUrl +:+ "/api/tags"; method := "GET"; headers := [];
     body := None; signal := None |}.

(** The options of the base URL prompt; [config] is the configuration
    already stored under the nickname, if any. *)
Definition baseUrl_input (config : option ModelConfig) : InputBoxOptions :=
  {| ib_title := "Flexpilot: Enter the base URL for Ollama API";
     ib_value := match config with Some c => baseUrl c | None => defaultBaseUrl end;
     ib_placeHolder := "e.g., " +:+ defaultBaseUrl;
     ib_prompt := DEFAULT_HELP_PROMPT;
     ib_validateInput := no_validation |}.

Definition configure (nickname : string) : M unit :=
  log Info ;;;
  config <- storage_get nickname ;;
  baseUrl <- window_showInputBox (baseUrl_input config) ;;
  match baseUrl with
  | None => throw (new_Error "User cancelled base URL input")
  | Some baseUrl =>
      let baseUrl := trim baseUrl in
      progress_report "Fetching available models" ;;;
      response <- fetch (tags_request baseUrl) ;;
      if negb (ok response) then
        throw (new_Error ("Failed to fetch models: " +:+ statusText response))
      else
        data <- lift (body_json response) ;;
        models <- lift (prop (Some data) "models") ;;
        modelsList <- lift (iterate (if truthy models then models else Some (JArr []))) ;;
        scanned <- scan_models modelsList [] [] ;;
        let '(modelPickUpItems, contextWindowMap) := scanned in
        if Nat.eqb (length modelPickUpItems) 0 then
          throw (new_Error "No models found for the given configuration")
        else
          model <- window_showQuickPick modelPickUpItems ;;
          match model with
          | None => throw (new_Error "User cancelled model selection")
          | Some model =>
              lift (to_text (label model)) ;;;
              log Info ;;;
              Tokenizers_download_ (label model) ;;;
              progress_report "Testing connection credentials" ;;;
              log Debug ;;;
              response <- fetch
                {| url := baseUrl +:+ "/api/generate";
                   method := "POST";
                   headers := json_headers;
                   body := Some (object
                     [("model", label model);
                      ("options", Some (object [("num_predict", Some (JInt 3))]));
                      ("prompt", Some (JStr "Hello"));
                      ("stream", Some (JBool false))]);
                   signal := None |} ;;
              if negb (ok response) then
                throw (new_Error ("Connection test failed: " +:+ statusText response))
              else
                log Info ;;;
                log Info ;;;
                storage_set nickname
                  {| contextWindow := default 4096%Z (map_get contextWindowMap (label model));
                     baseUrl := baseUrl;
                     model := label model;
                     nickname := nickname;
                     cfg_providerId := providerId;
                     apiKey := None |} ;;;
                log Info
          end
  end.

Definition initialize (this : Provider) : M Provider :=
  log Debug ;;;
  tk <- Tokenizers_get_ (model (config this)) ;;
  log Info ;;;
  ret {| config := config this; tokenizer := Some tk |}.

(** The object literal given to [JSON.stringify] in [invoke];
    [suffix || undefined] drops an empty suffix. *)
Definition generate_body (this : Provider) (options : InvokeOptions) (m : Messages) : json :=
  object
    [("model", model (config this));
     ("prompt", JStr <$> prefix m);
     ("options", Some (object [("num_predict", JInt <$> maxTokens options)]));
     ("suffix", match suffix m with
                | Some s => if String.eqb s "" then None else Some (JStr s)
                | None => None
                end);
     ("stream", Some (JBool false))].

Definition generate_request (this : Provider) (options : InvokeOptions) (m : Messages) : Request :=
  {| url := baseUrl (config this) +:+ "/api/generate";
     method := "POST";
     headers := json_headers;
     body := Some (generate_body this options m);
     signal := opt_signal options |}.

(** [invoke(options)]: resolves to [data.response], whatever the server
    put there. *)
Definition invoke (this : Provider) (options : InvokeOptions) : M jsval :=
  log Debug ;;;
  m <- lift (match messages options with
             | Some m => Ok m
             | None => Throw (TypeError "Cannot destructure property 'prefix' of 'options.messages' as it is undefined.")
             end) ;;
  response <- fetch (generate_request this options m) ;;
  if negb (ok response) then
    throw (new_Error ("Ollama API request failed: " +:+ statusText response))
  else
    data <- lift (body_json response) ;;
    eval_duration <- lift (prop (Some data) "eval_duration") ;;
    when (is_defined eval_duration)
      (eval_count <- lift (prop (Some data) "eval_count") ;;
       when (is_defined eval_count)
         ((* [data.eval_duration / 1_000_000], then
             [`${data.eval_count?.toString()}`] *)
          lift (to_text eval_duration) ;;;
          lift (to_text eval_count) ;;;
          log Debug)) ;;;
    (* [`Response: ${data.response}`] *)
    response_text <- lift (prop (Some data) "response") ;;
    lift (to_text response_text) ;;;
    log Debug ;;;
    lift (prop (Some data) "response").

End Ollama.

(** ** The three adapters behind one contract *)

Inductive Adapter := LlamaCppAdapter | DeepSeekAdapter | OllamaAdapter.

(** [new Provider(nickname)] for the class selected by [a]. *)
Definition construct (a : Adapter) (nickname : string) : M Provider :=
  match a with
  | LlamaCppAdapter => LlamaCpp.constructor nickname
  | DeepSeekAdapter => DeepSeek.constructor nickname
  | OllamaAdapter => Ollama.constructor nickname
  end.

(** [provider.invoke(options)] for the class selected by [a]; the value the
    promise resolves to. *)
Definition invoke (a : Adapter) (this : Provider) (options : InvokeOptions) : M jsval :=
  match a with
  | LlamaCppAdapter => output <- LlamaCpp.invoke this options ;; ret (Some (JStr output))
  | DeepSeekAdapter => output <- DeepSeek.invoke this options ;; ret (Some (JStr output))
  | OllamaAdapter => Ollama.invoke this options
  end.

(** [provider.initialize()] for the class selected by [a]; the instance
    after the call. *)
Definition initialize (a : Adapter) (this : Provider) : M Provider :=
  match a with
  | LlamaCppAdapter => LlamaCpp.initialize this
  | DeepSeekAdapter => DeepSeek.initialize this
  | OllamaAdapter => Ollama.initialize this
  end.


(** ** Response types declared by the adapters *)

Definition is_string (v : json) : bool := match v with JStr _ => true | _ => false end.
Definition is_number (v : json) : bool := match v with JNum _ => true | _ => false end.
Definition is_boolean (v : json) : bool := match v with JBool _ => true | _ => false end.

(** An optional property [k?: T]. *)
Definition optional (ty : json -> bool) (o : list (string * json)) (k : string) : bool :=
  match assoc k o with
  | None => true
  | Some v => ty v
  end.

(** [interface LlamaCppInfillResponse] as a predicate on a parsed body. *)
Definition LlamaCppInfillResponse (v : json) : bool :=
  match v with
  | JObj o =>
      optional is_string o "content" &&
      optional is_number o "tokens_cached" &&
      optional is_boolean o "truncated" &&
      optional (fun t =>
        match t with
        | JObj t =>
            optional is_number t "prompt_n" &&
            optional is_number t "prompt_ms" &&
            optional is_number t "prompt_per_second" &&
            optional is_number t "predicted_n" &&
            optional is_number t "predicted_ms" &&
            optional is_number t "predicted_per_second"
        | _ => false
        end) o "timings"
  | _ => false
  end.

(** A mandatory property [k: T]. *)
Definition required (ty : json -> bool) (o : list (string * json)) (k : string) : bool :=
  match assoc k o with
  | None => false
  | Some v => ty v
  end.

Definition is_number_array (v : json) : bool :=
  match v with
  | JArr l => forallb is_number l
  | _ => false
  end.

(** [interface OllamaGenerateResponse] as a predicate on a parsed body. *)
Definition OllamaGenerateResponse (v : json) : bool :=
  match v with
  | JObj o =>
      required is_string o "model" &&
      required is_string o "response" &&
      required is_boolean o "done" &&
      optional is_number_array o "context" &&
      optional is_string o "created_at" &&
      optional is_number o "total_duration" &&
      optional is_number o "load_duration" &&
      optional is_number o "prompt_eval_duration" &&
      optional is_number o "eval_duration" &&
      optional is_number o "eval_count" &&
      optional is_number o "prompt_eval_count"
  | _ => false
  end.

(** ** Vocabulary of the claims *)

(** The backend answers the request of [invoke] with a 2xx response, and
    [content] is what the body holds in the property that carries the
    generated text: [content] for llama.cpp, [choices[[0]].text] for
    DeepSeek, [response] for Ollama.  For llama.cpp and Ollama the body has
    the response type that the adapter declares; for DeepSeek it is the
    completion object the client library resolved to. *)
Definition backend_reports (a : Adapter) (w : World) (this : Provider)
    (options : InvokeOptions) (st : State) (content : jsval) : Prop :=
  is_aborted (opt_signal options) = false /\
  match a with
  | LlamaCppAdapter =>
      exists response doc,
        http w (wire st) (LlamaCpp.infill_request this options) = Ok response /\
        ok response = true /\
        body_json response = Ok doc /\
        LlamaCppInfillResponse doc = true /\
        prop (Some doc) "content" = Ok content
  | DeepSeekAdapter =>
      exists m sent doc choices,
        OpenAI_constructor w (DeepSeek.client_of this) = Ok tt /\
        messages options = Some m /\
        openai w (wire st) (DeepSeek.client_of this)
          (DeepSeek.completion_params this options m) = (sent, Ok doc) /\
        prop (Some doc) "choices" = Ok choices /\
        content = prop_opt (first_opt choices) "text"
  | OllamaAdapter =>
      exists m response doc,
        messages options = Some m /\
        http w (wire st) (Ollama.generate_request this options m) = Ok response /\
        ok response = true /\
        body_json response = Ok doc /\
        OllamaGenerateResponse doc = true /\
        prop (Some doc) "response" = Ok content
  end.

(** The property is absent or holds the empty string. *)
Definition no_content (content : jsval) : Prop :=
  content = None \/ content = Some (JStr "").


(** A list entry whose name can be read and logged: the entry is not
    [null] and its [name] has a text, as the string of the declared
    [OllamaModel] has. *)
Definition well_named (model : json) : Prop :=
  model <> JNull /\ to_text (prop_opt (Some model) "name") = Ok tt.




(** ** The errors of the specification's taxonomy, as the adapters raise them *)

Definition ConfigNotFound (nickname : string) : Error :=
  new_Error ("Model configuration not found for " +:+ nickname).

Definition NoModelsFound : Error :=
  new_Error "No models found for the given configuration".


(** ** Sample surroundings for the closed instances *)

Definition sample_response (st : nat) (txt : string) (b : json) : Response :=
  {| status := st;
     statusText := if Nat.eqb st 200 then "OK" else "Not Found";
     body_text := Ok txt;
     body_json := Ok b |}.

Definition sample_tokenizer : Tokenizer :=
  {| tk_encode := fun text _ => map (fun c => Z.of_nat (nat_of_ascii c)) (list_ascii_of_string text);
     tk_decode := fun tokens _ =>
       string_of_list_ascii (map (fun z => ascii_of_nat (Z.to_nat z)) tokens) |}.

(** A world whose every backend answers [r], whose user accepts the
    proposed value of every input box and picks nothing, and whose catalog
    knows no model. *)
Definition sample_world (r : Response) (completion : Outcome json) : World :=
  {| http := fun _ _ => Ok r;
     OpenAI_constructor := fun _ => Ok tt;
     openai := fun _ _ _ => ([], completion);
     showInputBox := fun o => Some (ib_value o);
     showQuickPick := fun _ => None;
     Tokenizers_get := fun _ => Ok sample_tokenizer;
     Tokenizers_download := fun _ => Ok tt;
     getCompletionModelMetadata := fun _ => None |}.

Definition empty_state : State := {| store := ∅; wire := []; trace := [] |}.

Definition sample_config : ModelConfig :=
  {| nickname := "local";
     cfg_providerId := LlamaCpp.providerId;
     model := Some (JStr "");
     contextWindow := 32768;
     baseUrl := "http://localhost:8012";
     apiKey := None |}.

Definition sample_provider : Provider := {| config := sample_config; tokenizer := None |}.

Definition sample_options (sig : option AbortSignal) : InvokeOptions :=
  {| messages := Some {| prefix := Some "def add(a, b):"; suffix := Some "" |};
     maxTokens := Some 50%Z;
     stop := Some [];
     temperature := None;
     opt_signal := sig |}.

Definition ollama_config : ModelConfig :=
  {| nickname := "coder";
     cfg_providerId := Ollama.providerId;
     model := Some (JStr "codellama:7b");
     contextWindow := 4096;
     baseUrl := "http://localhost:11434";
     apiKey := None |}.

Definition ollama_provider : Provider :=
  {| config := ollama_config; tokenizer := Some sample_tokenizer |}.

Definition deepseek_config (m : string) : ModelConfig :=
  {| nickname := "hosted";
     cfg_providerId := DeepSeek.providerId;
     model := Some (JStr m);
     contextWindow := 65536;
     baseUrl := "https://api.deepseek.com/beta";
     apiKey := Some "sk-test" |}.

Definition deepseek_provider (m : string) : Provider :=
  {| config := deepseek_config m; tokenizer := None |}.

(** A world in which the DeepSeek configuration goes through: the catalog
    knows every model and the probe completes. *)
Definition deepseek_world : World :=
  {| http := fun _ _ => Ok (sample_response 200 "" JNull);
     OpenAI_constructor := fun _ => Ok tt;
     openai := fun _ _ _ => ([], Ok (JObj [("choices", JArr [JObj [("text", JStr " are")]])]));
     showInputBox := fun o => Some (if String.eqb (ib_value o) "" then "sk-test" else ib_value o);
     showQuickPick := fun _ => None;
     Tokenizers_get := fun _ => Ok sample_tokenizer;
     Tokenizers_download := fun _ => Ok tt;
     getCompletionModelMetadata := fun _ => Some {| md_contextWindow := 65536 |} |}.

(** A store in which the nickname "coder" holds the configuration that the
    Ollama adapter wrote. *)
Definition ollama_state : State :=
  {| store := {["coder" := ollama_config]}; wire := []; trace := [] |}.

(** The body of an [/api/tags] answer listing two installed models. *)
Definition tags_body : json :=
  JObj [("models", JArr [JObj [("name", JStr "llama3:8b"); ("size", JInt 4661224676)];
                         JObj [("name", JStr "mistral:7b"); ("size", JInt 4109865159)]])].

(** A world whose client library, left with the retry policy it has by
    default, sends the completion request three times to a server that
    answers 500 each time, and then rejects. *)
Definition retrying_world : World :=
  {| http := fun _ _ => Ok (sample_response 200 "" JNull);
     OpenAI_constructor := fun _ => Ok tt;
     openai := fun _ c params =>
       (let request :=
          {| url := client_baseURL c +:+ "/completions";
             method := "POST";
             headers := [("Content-Type", "application/json")];
             body := Some params;
             signal := None |} in
        [request; request; request],
        Throw (mkError "Error" "500 status code (no body)"));
     showInputBox := fun o => Some (ib_value o);
     showQuickPick := fun _ => None;
     Tokenizers_get := fun _ => Ok sample_tokenizer;
     Tokenizers_download := fun _ => Ok tt;
     getCompletionModelMetadata := fun _ => None |}.

(** ** Vocabulary of the further properties *)

(** [Provider.configure(nickname)] for the class selected by [a]. *)
Definition configure (a : Adapter) (nickname : string) : M unit :=
  match a with
  | LlamaCppAdapter => LlamaCpp.configure nickname
  | DeepSeekAdapter => DeepSeek.configure nickname
  | OllamaAdapter => Ollama.configure nickname
  end.

(** [Provider.providerId] for the class selected by [a]. *)
Definition providerId_of (a : Adapter) : string :=
  match a with
  | LlamaCppAdapter => LlamaCpp.providerId
  | DeepSeekAdapter => DeepSeek.providerId
  | OllamaAdapter => Ollama.providerId
  end.

(** The prompt in which [configure] asks for the base URL; [config] is
    what the store holds under the nickname. *)
Definition baseUrl_prompt (a : Adapter) (config : option ModelConfig) : InputBoxOptions :=
  match a with
  | LlamaCppAdapter =>
      {| ib_title := "Flexpilot: Enter the base URL for llama.cpp API";
         ib_value := match config with
                     | Some c => baseUrl c
                     | None => LlamaCpp.defaultBaseUrl
                     end;
         ib_placeHolder := "e.g., " +:+ LlamaCpp.defaultBaseUrl;
         ib_prompt := LlamaCpp.DEFAULT_HELP_PROMPT;
         ib_validateInput := no_validation |}
  | DeepSeekAdapter =>
      {| ib_title := "Flexpilot: Enter the base URL for DeepSeek API";
         ib_value := match config with
                     | Some c => baseUrl c
                     | None => DeepSeek.defaultBaseUrl
                     end;
         ib_placeHolder := "e.g., " +:+ DeepSeek.defaultBaseUrl;
         ib_prompt := DeepSeek.DEFAULT_HELP_PROMPT;
         ib_validateInput := no_validation |}
  | OllamaAdapter => Ollama.baseUrl_input config
  end.

(** The prompt in which DeepSeek's [configure] asks for the API key. *)
Definition apiKey_prompt (config : option ModelConfig) : InputBoxOptions :=
  {| ib_title := "Flexpilot: Enter your DeepSeek API key";
     ib_value := default "" (config ≫= apiKey);
     ib_placeHolder := "e.g., sk-mFzPtn4QYHOSJ...";
     ib_prompt := DeepSeek.DEFAULT_HELP_PROMPT;
     ib_validateInput := DeepSeek.validateApiKey |}.

(** The connectivity probe of llama.cpp's [configure]. *)
Definition llamacpp_probe (baseUrl : string) : Request :=
  {| url := baseUrl +:+ "/completion";
     method := "POST";
     headers := json_headers;
     body := Some (JObj [("prompt", JStr "Hello"); ("n_predict", JInt 3);
                         ("stream", JBool false)]);
     signal := None |}.


(** The parameters of the connectivity probe of DeepSeek's [configure]. *)
Definition deepseek_probe_params : json :=
  JObj [("model", JStr "deepseek-chat"); ("max_tokens", JInt 3);
        ("prompt", JStr "How"); ("suffix", JStr "are you?")].

(** One pick item for each listed model whose name the catalog knows, in
    the order of the list. *)
Definition recognized_items (w : World) (modelsList : list json) : list QuickPickItem :=
  omap (fun model =>
          match getCompletionModelMetadata w (prop_opt (Some model) "name") with
          | Some _ => Some {| label := prop_opt (Some model) "name" |}
          | None => None
          end) modelsList.

(** Events that neither touch a backend, the tokenizer cache or the client
    library, nor write the store: log lines, store lookups, prompts and
    progress messages. *)
Definition is_quiet (e : Event) : Prop :=
  match e with
  | ELog _ | EStorageGet _ | EInputBox _ | EQuickPick _ | EProgress _ => True
  | _ => False
  end.

(** The calls of [openai.completions.create], in order. *)
Definition completions (t : list Event) : list (ClientOptions * json * option AbortSignal) :=
  omap (fun e => match e with
                 | ECompletionsCreate c p s => Some (c, p, s)
                 | _ => None
                 end) t.

(** The model ids handed to [Tokenizers.download], in order. *)
Definition downloads (t : list Event) : list jsval :=
  omap (fun e => match e with ETokenizersDownload m => Some m | _ => None end) t.

(** A user who dismisses every prompt. *)
Definition dismissing_world : World :=
  {| http := fun _ _ => Ok (sample_response 200 "" JNull);
     OpenAI_constructor := fun _ => Ok tt;
     openai := fun _ _ _ => ([], Ok JNull);
     showInputBox := fun _ => None;
     showQuickPick := fun _ => None;
     Tokenizers_get := fun _ => Ok sample_tokenizer;
     Tokenizers_download := fun _ => Ok tt;
     getCompletionModelMetadata := fun _ => None |}.

(** A world in which the Ollama configuration goes through: the server
    lists two models, the catalog knows "llama3:8b" with a window of 8192
    tokens, and the user picks the first item offered. *)
Definition ollama_world : World :=
  {| http := fun _ _ => Ok (sample_response 200 "" tags_body);
     OpenAI_constructor := fun _ => Ok tt;
     openai := fun _ _ _ => ([], Ok JNull);
     showInputBox := fun o => Some ("  " +:+ ib_value o +:+ " ");
     showQuickPick := fun items => head items;
     Tokenizers_get := fun _ => Ok sample_tokenizer;
     Tokenizers_download := fun _ => Ok tt;
     getCompletionModelMetadata := fun m =>
       if jsval_eqb m (Some (JStr "llama3:8b"))
       then Some {| md_contextWindow := 8192 |} else None |}.

(** The method never writes the configuration store: the store is as it
    was and the trace has no new call of [set]. *)
Definition keeps_store {A} (m : M A) : Prop :=
  forall w st,
    store (final m w st) = store st /\
    sets (trace (final m w st)) = sets (trace st).

(** The method never puts anything on the wire and calls neither [fetch]
    nor the client library. *)
Definition stays_local {A} (m : M A) : Prop :=
  forall w st,
    wire (final m w st) = wire st /\
    fetches (trace (final m w st)) = fetches (trace st) /\
    completions (trace (final m w st)) = completions (trace st).

(** What [configure] promises about the store, on the outcome [r] of a run
    from [st]: a rejected run has written nothing; a run that resolved has
    called [set] once, for the nickname it was given, with a record that
    bears this nickname and the provider id of the adapter. *)
Definition all_or_nothing (a : Adapter) (nick : string) (st : State)
    (r : Outcome unit * State) : Prop :=
  match fst r with
  | Throw _ =>
      store (snd r) = store st /\
      sets (trace (snd r)) = sets (trace st)
  | Ok _ =>
      exists c,
        store (snd r) = <[nick := c]> (store st) /\
        sets (trace (snd r)) = sets (trace st) ++ [(nick, c)] /\
        nickname c = nick /\
        cfg_providerId c = providerId_of a
  end.

(** Every entry of the context window map was taken from the catalog entry
    of its key and is not zero. *)
Definition windows_sound (w : World) (cw : list (jsval * Z)) : Prop :=
  Forall (fun kv => exists md, getCompletionModelMetadata w (fst kv) = Some md /\
                               snd kv = md_contextWindow md /\
                               snd kv <> 0%Z) cw.

(** Every pick item whose catalog entry has a window other than zero has
    an entry in the context window map. *)
Definition windows_complete (w : World) (items : list QuickPickItem)
    (cw : list (jsval * Z)) : Prop :=
  Forall (fun item => forall md, getCompletionModelMetadata w (label item) = Some md ->
                                 md_contextWindow md <> 0%Z ->
                                 In (label item, md_contextWindow md) cw) items.

(** ** Proof steps *)

(** Unfold the monad and compute. *)
Ltac unfold_monad :=
  unfold result, final, bind, emit, log, lift, ret, throw, when, fetch, storage_get,
    storage_set, completions_create, new_OpenAI.

Ltac run := unfold_monad; cbn.

(** Case analysis on the innermost undetermined test. *)
Ltac branch :=
  match goal with
  | |- context [match ?x with _ => _ end] =>
      lazymatch x with
      | context [match _ with _ => _ end] => fail
      | _ => destruct x eqn:?; cbn
      end
  end.

(** Compute, leaving the reads and conversions of JavaScript folded. *)
Ltac quiet_cbn :=
  cbn -[prop call_toFixed_opt call_substring coalesce truthy to_text read_length].

Ltac quiet_branch :=
  match goal with
  | |- context [match ?x with _ => _ end] =>
      lazymatch x with
      | context [match _ with _ => _ end] => fail
      | _ => destruct x eqn:?; quiet_cbn
      end
  end.

(** * Properties *)

(** ** Bookkeeping on traces *)

Lemma fetches_app (t u : list Event) : fetches (t ++ u) = fetches t ++ fetches u.
Proof. unfold fetches. apply omap_app. Qed.

Lemma sets_app (t u : list Event) : sets (t ++ u) = sets t ++ sets u.
Proof. unfold sets. apply omap_app. Qed.

Lemma completions_app (t u : list Event) :
  completions (t ++ u) = completions t ++ completions u.
Proof. unfold completions. apply omap_app. Qed.

Lemma downloads_app (t u : list Event) : downloads (t ++ u) = downloads t ++ downloads u.
Proof. unfold downloads. apply omap_app. Qed.

Ltac tidy :=
  rewrite ?sets_app, ?fetches_app, ?completions_app, ?downloads_app; cbn;
  rewrite ?app_nil_r.

(** ** Construction *)

(** C4. Constructing any of the three providers for a nickname that has no
    stored configuration rejects with the configuration-not-found error, so
    no instance is returned; the store and the backends are left as they
    were, and all the constructor did is write one log line and look the
    nickname up. *)
Theorem construct_absent_nickname (a : Adapter) (nickname : string) (w : World) (st : State) :
  store st !! nickname = None ->
  result (construct a nickname) w st = Throw (ConfigNotFound nickname) /\
  store (final (construct a nickname) w st) = store st /\
  wire (final (construct a nickname) w st) = wire st /\
  exists l, trace (final (construct a nickname) w st) = trace st ++ [ELog l; EStorageGet nickname].
Proof.
  intros Hnone.
  destruct a; unfold construct, LlamaCpp.constructor, DeepSeek.constructor, Ollama.constructor;
    run; rewrite Hnone; cbn; repeat split; eexists; rewrite <- app_assoc; reflexivity.
Qed.

Lemma construct_absent_nickname_witness :
  result (construct OllamaAdapter "missing") (sample_world (sample_response 200 "" JNull) (Ok JNull))
    empty_state = Throw (ConfigNotFound "missing").
Proof.
  apply (construct_absent_nickname OllamaAdapter "missing"
           (sample_world (sample_response 200 "" JNull) (Ok JNull)) empty_state).
  reflexivity.
Defined.

(** ** llama.cpp: the infill request *)

(** Whatever the network answers, [invoke] hands exactly one request to
    [fetch], the infill request. *)
Lemma llamacpp_invoke_fetches (this : Provider) (options : InvokeOptions) (w : World) (st : State) :
  fetches (trace (final (LlamaCpp.invoke this options) w st)) =
  fetches (trace st) ++ [LlamaCpp.infill_request this options].
Proof.
  unfold LlamaCpp.invoke. run.
  repeat branch; rewrite ?fetches_app; cbn; rewrite ?app_nil_r; reflexivity.
Qed.

(** What the declared response type guarantees about the properties that
    [invoke] converts or calls methods on. *)
Lemma infill_response_timings (o : list (string * json)) :
  LlamaCppInfillResponse (JObj o) = true ->
  assoc "timings" o = None \/
  exists t, assoc "timings" o = Some (JObj t) /\
            to_text (assoc "predicted_n" t) = Ok tt /\
            to_text (assoc "predicted_ms" t) = Ok tt /\
            call_toFixed_opt (assoc "predicted_per_second" t) = Ok tt.
Proof.
  cbn. unfold optional. intros H.
  apply andb_prop in H as [_ H].
  destruct (assoc "timings" o) as [[| | | | |t]|]; try discriminate; [right|left; reflexivity].
  exists t. split; [reflexivity|].
  repeat (apply andb_prop in H as [H ?]).
  repeat split.
  - destruct (assoc "predicted_n" t) as [[]|]; try discriminate; reflexivity.
  - destruct (assoc "predicted_ms" t) as [[]|]; try discriminate; reflexivity.
  - destruct (assoc "predicted_per_second" t) as [[]|]; try discriminate; reflexivity.
Qed.

Lemma infill_response_truncated (o : list (string * json)) :
  LlamaCppInfillResponse (JObj o) = true ->
  assoc "truncated" o = None \/ exists b, assoc "truncated" o = Some (JBool b).
Proof.
  cbn. unfold optional. intros H.
  apply andb_prop in H as [H _]. apply andb_prop in H as [_ H].
  destruct (assoc "truncated" o) as [[]|]; try discriminate; eauto.
Qed.

Lemma prop_object (o : list (string * json)) (k : string) :
  prop (Some (JObj o)) k = Ok (assoc k o).
Proof. reflexivity. Qed.

Lemma infill_response_content (o : list (string * json)) :
  LlamaCppInfillResponse (JObj o) = true ->
  assoc "content" o = None \/ exists c, assoc "content" o = Some (JStr c).
Proof.
  cbn. unfold optional. intros H.
  repeat (apply andb_prop in H as [H _]).
  destruct (assoc "content" o) as [[]|]; try discriminate; eauto.
Qed.

(** The run of [invoke] on a 2xx answer of the declared type. *)
Lemma llamacpp_invoke_typed (this : Provider) (options : InvokeOptions) (w : World)
    (st : State) (response : Response) (o : list (string * json)) :
  is_aborted (opt_signal options) = false ->
  http w (wire st) (LlamaCpp.infill_request this options) = Ok response ->
  ok response = true ->
  body_json response = Ok (JObj o) ->
  LlamaCppInfillResponse (JObj o) = true ->
  LlamaCpp.invoke this options w st =
    (Ok (match assoc "content" o with Some (JStr c) => c | _ => "" end),
     {| store := store st;
        wire := wire st ++ [LlamaCpp.infill_request this options];
        trace := trace st ++
                 [ELog Debug; EFetch (LlamaCpp.infill_request this options)] ++
                 (if truthy (assoc "truncated" o) then [ELog Warn] else []) ++
                 (if truthy (assoc "timings" o) then [ELog Debug] else []) ++
                 [ELog Debug] |}).
Proof.
  intros Hsig Hhttp Hok Hjson Hty.
  unfold LlamaCpp.invoke. unfold_monad. quiet_cbn.
  rewrite Hsig, Hhttp. quiet_cbn. rewrite Hok, Hjson. quiet_cbn.
  rewrite !prop_object.
  destruct (infill_response_timings o Hty) as [Ht|(tm & Ht & Hn & Hms & Hfix)];
    destruct (infill_response_content o Hty) as [Hc|(c & Hc)];
    rewrite Ht, Hc; cbn -[prop to_text call_toFixed_opt];
    rewrite ?prop_object, ?Hn, ?Hms, ?Hfix; cbn;
    destruct (truthy (assoc "truncated" o)); cbn;
    rewrite <- ?app_assoc; reflexivity.
Qed.

(** C5, as the adapter implements it.  A llama.cpp provider invoked with
    prefix [p], suffix [s], [n] tokens and stop list [l] hands exactly one
    request to [fetch]: a POST
    to [baseUrl + "/infill"] with the body
    [{input_prefix: p, input_suffix: s, n_predict: n, stop: l, stream: false}].
    When the server answers 2xx with a body of the declared response type,
    the call resolves to exactly the body's [content], or to the empty
    string when the body has none. *)
Theorem llamacpp_invoke_infill (this : Provider) (p s : string) (n : Z) (l : list string)
    (t : option Q) (sig : option AbortSignal) (w : World) (st : State) :
  let options :=
    {| messages := Some {| prefix := Some p; suffix := Some s |};
       maxTokens := Some n; stop := Some l; temperature := t; opt_signal := sig |} in
  let request :=
    {| url := baseUrl (config this) +:+ "/infill";
       method := "POST";
       headers := [("Content-Type", "application/json")];
       body := Some (JObj [("input_prefix", JStr p); ("input_suffix", JStr s);
                           ("n_predict", JInt n); ("stop", JArr (map JStr l));
                           ("stream", JBool false)]);
       signal := sig |} in
  fetches (trace (final (LlamaCpp.invoke this options) w st)) = fetches (trace st) ++ [request] /\
  forall response doc,
    is_aborted sig = false ->
    http w (wire st) request = Ok response ->
    ok response = true ->
    body_json response = Ok doc ->
    LlamaCppInfillResponse doc = true ->
    wire (final (LlamaCpp.invoke this options) w st) = wire st ++ [request] /\
    result (LlamaCpp.invoke this options) w st =
      Ok (match prop_opt (Some doc) "content" with Some (JStr c) => c | _ => "" end).
Proof.
  intros options request. split.
  - apply llamacpp_invoke_fetches.
  - intros response doc Hsig Hhttp Hok Hjson Hty.
    destruct doc as [| | | | |o]; try discriminate.
    unfold result, final.
    rewrite (llamacpp_invoke_typed this options w st response o Hsig Hhttp Hok Hjson Hty).
    split; reflexivity.
Qed.

Lemma llamacpp_invoke_infill_witness :
  result (LlamaCpp.invoke sample_provider (sample_options None))
    (sample_world (sample_response 200 "" (JObj [("content", JStr "return a + b")])) (Ok JNull))
    empty_state = Ok "return a + b".
Proof.
  exact (proj2 (proj2 (llamacpp_invoke_infill sample_provider "def add(a, b):" "" 50 [] None None
                         (sample_world (sample_response 200 ""
                                          (JObj [("content", JStr "return a + b")])) (Ok JNull))
                         empty_state)
                  (sample_response 200 "" (JObj [("content", JStr "return a + b")]))
                  (JObj [("content", JStr "return a + b")])
                  eq_refl eq_refl eq_refl eq_refl eq_refl)).
Defined.

(** C5 fails as stated: a 2xx answer need not make [invoke] return the
    [content] of the body.  When the body is not of the declared type, here
    with a string where [timings.predicted_per_second] is to be a number,
    the call rejects with the [TypeError] of its log line although the
    completion is there. *)
Lemma llamacpp_invoke_infill_counterexample :
  ok (sample_response 200 ""
        (JObj [("content", JStr "return a + b");
               ("timings", JObj [("predicted_per_second", JStr "41.7")])])) = true /\
  prop_opt (Some (JObj [("content", JStr "return a + b");
                        ("timings", JObj [("predicted_per_second", JStr "41.7")])]))
    "content" = Some (JStr "return a + b") /\
  exists e,
    result (LlamaCpp.invoke sample_provider (sample_options None))
      (sample_world
         (sample_response 200 ""
            (JObj [("content", JStr "return a + b");
                   ("timings", JObj [("predicted_per_second", JStr "41.7")])]))
         (Ok JNull))
      empty_state = Throw e /\
    name e = "TypeError".
Proof. split; [reflexivity | split; [reflexivity|]]. eexists. split; reflexivity. Qed.

(** C10. In the infill request that a llama.cpp [invoke] sends, an absent
    [maxTokens] becomes [n_predict: 100], an absent prefix or suffix (or an
    absent [messages]) becomes the empty string, and an absent [stop]
    becomes the empty list. *)
Theorem llamacpp_invoke_defaults (this : Provider) (options : InvokeOptions) (w : World) (st : State) :
  let sent := LlamaCpp.infill_request this options in
  fetches (trace (final (LlamaCpp.invoke this options) w st)) = fetches (trace st) ++ [sent] /\
  (maxTokens options = None -> prop_opt (body sent) "n_predict" = Some (JInt 100)) /\
  (messages options ≫= prefix = None -> prop_opt (body sent) "input_prefix" = Some (JStr "")) /\
  (messages options ≫= suffix = None -> prop_opt (body sent) "input_suffix" = Some (JStr "")) /\
  (stop options = None -> prop_opt (body sent) "stop" = Some (JArr [])).
Proof.
  cbn. split; [apply llamacpp_invoke_fetches|].
  repeat split; intros ->; reflexivity.
Qed.

Lemma llamacpp_invoke_defaults_witness :
  body (LlamaCpp.infill_request sample_provider
          {| messages := None; maxTokens := None; stop := None;
             temperature := None; opt_signal := None |}) =
  Some (JObj [("input_prefix", JStr ""); ("input_suffix", JStr ""); ("n_predict", JInt 100);
              ("stop", JArr []); ("stream", JBool false)]) /\
  prop_opt (body (LlamaCpp.infill_request sample_provider
          {| messages := None; maxTokens := None; stop := None;
             temperature := None; opt_signal := None |})) "n_predict" = Some (JInt 100).
Proof.
  split; [reflexivity|].
  exact (proj1 (proj2 (llamacpp_invoke_defaults sample_provider
                         {| messages := None; maxTokens := None; stop := None;
                            temperature := None; opt_signal := None |}
                         (sample_world (sample_response 200 "" JNull) (Ok JNull)) empty_state))
               eq_refl).
Defined.

(** ** Encoding *)

(** C6. DeepSeek's [encode] is a computation on the local tokenizer handle:
    it writes one log line, calls no transport and nothing reaches a
    backend.  llama.cpp's [encode] always hands exactly one request to
    [fetch], a POST to [baseUrl + "/tokenize"] with the body
    [{content: text, add_special: false}], which reaches the server, and on
    a 2xx answer resolves to the [tokens] property of the body. *)
Theorem encode_local_or_remote :
  (forall this text w st,
     result (DeepSeek.encode this text) w st = tokenizer_encode this text /\
     trace (final (DeepSeek.encode this text) w st) = trace st ++ [ELog Debug] /\
     wire (final (DeepSeek.encode this text) w st) = wire st) /\
  (forall this text w st,
     let request :=
       {| url := baseUrl (config this) +:+ "/tokenize";
          method := "POST";
          headers := [("Content-Type", "application/json")];
          body := Some (JObj [("content", JStr text); ("add_special", JBool false)]);
          signal := None |} in
     fetches (trace (final (LlamaCpp.encode this text) w st)) = fetches (trace st) ++ [request] /\
     wire (final (LlamaCpp.encode this text) w st) = wire st ++ [request] /\
     forall response doc,
       http w (wire st) request = Ok response ->
       ok response = true ->
       body_json response = Ok doc ->
       result (LlamaCpp.encode this text) w st = prop (Some doc) "tokens").
Proof.
  split.
  - intros this text w st. unfold DeepSeek.encode. run.
    destruct (tokenizer_encode this text); auto.
  - intros this text w st request.
    unfold LlamaCpp.encode. run.
    change (LlamaCpp.tokenize_request this text) with request.
    repeat split.
    + repeat branch; rewrite ?fetches_app; cbn; rewrite ?app_nil_r; reflexivity.
    + repeat branch; reflexivity.
    + intros response doc -> Hok Hjson. cbn. rewrite Hok, Hjson. cbn.
      destruct (prop (Some doc) "tokens"); reflexivity.
Qed.

Lemma encode_local_or_remote_witness :
  result (LlamaCpp.encode sample_provider "hello")
    (sample_world (sample_response 200 "" (JObj [("tokens", JArr [JInt 15339])])) (Ok JNull))
    empty_state = Ok (Some (JArr [JInt 15339])).
Proof.
  exact (proj2 (proj2 (proj2 encode_local_or_remote sample_provider "hello"
                         (sample_world (sample_response 200 ""
                                          (JObj [("tokens", JArr [JInt 15339])])) (Ok JNull))
                         empty_state))
               (sample_response 200 "" (JObj [("tokens", JArr [JInt 15339])]))
               (JObj [("tokens", JArr [JInt 15339])])
               eq_refl eq_refl eq_refl).
Defined.

(** ** Empty completions *)

(** A value of a declared number, string or boolean type has a text. *)
Lemma optional_number_text (o : list (string * json)) (k : string) :
  optional is_number o k = true -> to_text (assoc k o) = Ok tt.
Proof. unfold optional. destruct (assoc k o) as [[]|]; try discriminate; reflexivity. Qed.

(** The run of Ollama's [invoke] on a 2xx answer whose body is not [null]
    and whose logged properties have a text. *)
Lemma ollama_invoke_run (this : Provider) (options : InvokeOptions) (m : Messages)
    (w : World) (st : State) (response : Response) (doc : json) :
  is_aborted (opt_signal options) = false ->
  messages options = Some m ->
  http w (wire st) (Ollama.generate_request this options m) = Ok response ->
  ok response = true ->
  body_json response = Ok doc ->
  doc <> JNull ->
  to_text (prop_opt (Some doc) "eval_duration") = Ok tt ->
  to_text (prop_opt (Some doc) "eval_count") = Ok tt ->
  to_text (prop_opt (Some doc) "response") = Ok tt ->
  result (Ollama.invoke this options) w st = Ok (prop_opt (Some doc) "response").
Proof.
  intros Hsig Hm Hhttp Hok Hjson Hnn Hd Hc Hr.
  assert (Hprop : forall k, prop (Some doc) k = Ok (prop_opt (Some doc) k))
    by (intros k; destruct doc; try congruence; reflexivity).
  unfold Ollama.invoke. unfold_monad. cbn -[prop prop_opt to_text is_defined].
  rewrite Hm. cbn -[prop prop_opt to_text is_defined].
  rewrite Hsig, Hhttp. cbn -[prop prop_opt to_text is_defined].
  rewrite Hok, Hjson. cbn -[prop prop_opt to_text is_defined].
  rewrite !Hprop, Hd, Hc, Hr.
  destruct (is_defined (prop_opt (Some doc) "eval_duration"));
    destruct (is_defined (prop_opt (Some doc) "eval_count")); reflexivity.
Qed.

(** C1, as the adapters implement it.  When the backend answers 2xx with a
    body of the response type that the adapter declares, and the property
    that carries the generated text is empty or, where that type allows
    it, absent, [invoke] resolves to the empty string and does not
    throw. *)
Theorem invoke_empty_completion (a : Adapter) (w : World) (this : Provider)
    (options : InvokeOptions) (st : State) (content : jsval) :
  backend_reports a w this options st content ->
  no_content content ->
  result (invoke a this options) w st = Ok (Some (JStr "")).
Proof.
  intros [Hsig Hrep] Hnone.
  destruct a; cbn -[prop] in Hrep.
  - destruct Hrep as (response & doc & Hhttp & Hok & Hjson & Hty & Hc).
    destruct doc as [| | | | |o]; try discriminate.
    rewrite prop_object in Hc. injection Hc as Hc.
    unfold invoke, bind, ret, result.
    rewrite (llamacpp_invoke_typed this options w st response o Hsig Hhttp Hok Hjson Hty).
    rewrite Hc. destruct Hnone as [-> | ->]; reflexivity.
  - destruct Hrep as (m & sent & doc & choices & Hnew & Hm & Hcall & Hch & Hc).
    unfold invoke, DeepSeek.invoke. unfold_monad. quiet_cbn.
    rewrite Hnew, Hm. quiet_cbn. rewrite Hsig, Hcall. quiet_cbn. rewrite Hch. quiet_cbn.
    rewrite <- Hc. destruct Hnone as [-> | ->]; reflexivity.
  - destruct Hrep as (m & response & doc & Hm & Hhttp & Hok & Hjson & Hty & Hc).
    destruct doc as [| | | | |o]; try discriminate.
    rewrite prop_object in Hc. injection Hc as Hc.
    unfold invoke.
    rewrite (ollama_invoke_run this options m w st response (JObj o) Hsig Hm Hhttp Hok Hjson).
    + cbn. rewrite Hc.
      cbn in Hty. repeat (apply andb_prop in Hty as [Hty ?]).
      unfold required in *. rewrite Hc in *.
      destruct Hnone as [-> | ->]; [discriminate|reflexivity].
    + discriminate.
    + cbn in Hty |- *. repeat (apply andb_prop in Hty as [Hty ?]).
      apply optional_number_text. assumption.
    + cbn in Hty |- *. repeat (apply andb_prop in Hty as [Hty ?]).
      apply optional_number_text. assumption.
    + cbn in Hty |- *. repeat (apply andb_prop in Hty as [Hty ?]).
      unfold required in *. destruct (assoc "response" o) as [[]|]; try discriminate; reflexivity.
Qed.

Lemma invoke_empty_completion_witness :
  result (invoke OllamaAdapter ollama_provider (sample_options None))
    (sample_world
       (sample_response 200 ""
          (JObj [("model", JStr "codellama:7b"); ("response", JStr ""); ("done", JBool true)]))
       (Ok JNull))
    empty_state = Ok (Some (JStr "")).
Proof.
  apply (invoke_empty_completion OllamaAdapter
           (sample_world
              (sample_response 200 ""
                 (JObj [("model", JStr "codellama:7b"); ("response", JStr "");
                        ("done", JBool true)]))
              (Ok JNull))
           ollama_provider (sample_options None) empty_state (Some (JStr ""))).
  - split; [reflexivity|].
    exists {| prefix := Some "def add(a, b):"; suffix := Some "" |},
      (sample_response 200 ""
         (JObj [("model", JStr "codellama:7b"); ("response", JStr ""); ("done", JBool true)])),
      (JObj [("model", JStr "codellama:7b"); ("response", JStr ""); ("done", JBool true)]).
    repeat split; reflexivity.
  - right. reflexivity.
Defined.

(** C1 fails as stated: the claim puts no condition on the rest of the
    body.  A 2xx answer of llama.cpp without [content] whose
    [timings.predicted_per_second] is a string, not the number of the
    declared type, makes [invoke] throw a [TypeError] on the log line of
    the generation statistics. *)
Lemma invoke_empty_completion_counterexample :
  ok (sample_response 200 ""
        (JObj [("timings", JObj [("predicted_per_second", JStr "41.7")])])) = true /\
  prop_opt (Some (JObj [("timings", JObj [("predicted_per_second", JStr "41.7")])])) "content"
    = undefined /\
  exists e,
    result (invoke LlamaCppAdapter sample_provider (sample_options None))
      (sample_world
         (sample_response 200 ""
            (JObj [("timings", JObj [("predicted_per_second", JStr "41.7")])]))
         (Ok JNull))
      empty_state = Throw e /\
    name e = "TypeError".
Proof. split; [reflexivity | split; [reflexivity|]]. eexists. split; reflexivity. Qed.

(** ** Backend errors *)

Lemma starts_with_append (s rest : string) : starts_with s (s +:+ rest) = true.
Proof.
  induction s as [|c s IH]; simpl; [reflexivity|].
  rewrite Ascii.eqb_refl. exact IH.
Qed.

Lemma includes_starts_with (hay needle : string) :
  starts_with needle hay = true -> includes hay needle = true.
Proof.
  intros H. destruct hay; simpl; rewrite H; reflexivity.
Qed.

Lemma includes_here (s rest : string) : includes (s +:+ rest) s = true.
Proof. apply includes_starts_with, starts_with_append. Qed.

Lemma includes_end (s : string) : includes s s = true.
Proof.
  apply includes_starts_with.
  induction s as [|c s IH]; simpl; [reflexivity|].
  rewrite Ascii.eqb_refl. exact IH.
Qed.

Lemma includes_later (before hay needle : string) :
  includes hay needle = true -> includes (before +:+ hay) needle = true.
Proof.
  intros H. induction before as [|c before IH]; simpl; [exact H|].
  rewrite IH. apply orb_true_r.
Qed.

(** What the three adapters do with a failing backend, one adapter at a
    time. *)
Lemma llamacpp_invoke_not_ok (this : Provider) (options : InvokeOptions) (w : World)
    (st : State) (response : Response) :
  is_aborted (opt_signal options) = false ->
  http w (wire st) (LlamaCpp.infill_request this options) = Ok response ->
  ok response = false ->
  result (LlamaCpp.invoke this options) w st =
    Throw (new_Error ("Failed to invoke llama.cpp model: " +:+ pretty (status response)
                      +:+ " " +:+ statusText response +:+ LF +:+
                      match body_text response with Ok t => t | Throw _ => "Unknown error" end)) /\
  wire (final (LlamaCpp.invoke this options) w st) =
    wire st ++ [LlamaCpp.infill_request this options].
Proof.
  intros Hsig Hhttp Hok. unfold LlamaCpp.invoke. run.
  rewrite Hsig, Hhttp. cbn. rewrite Hok. cbn. split; reflexivity.
Qed.

Lemma ollama_invoke_fetches (this : Provider) (options : InvokeOptions) (m : Messages)
    (w : World) (st : State) :
  messages options = Some m ->
  fetches (trace (final (Ollama.invoke this options) w st)) =
  fetches (trace st) ++ [Ollama.generate_request this options m].
Proof.
  intros Hm. unfold Ollama.invoke. run. rewrite Hm. cbn.
  repeat branch; rewrite ?fetches_app; cbn; rewrite ?app_nil_r; reflexivity.
Qed.

Lemma ollama_invoke_not_ok (this : Provider) (options : InvokeOptions) (m : Messages)
    (w : World) (st : State) (response : Response) :
  is_aborted (opt_signal options) = false ->
  messages options = Some m ->
  http w (wire st) (Ollama.generate_request this options m) = Ok response ->
  ok response = false ->
  result (Ollama.invoke this options) w st =
    Throw (new_Error ("Ollama API request failed: " +:+ statusText response)) /\
  wire (final (Ollama.invoke this options) w st) =
    wire st ++ [Ollama.generate_request this options m].
Proof.
  intros Hsig Hm Hhttp Hok. unfold Ollama.invoke. run.
  rewrite Hm. cbn. rewrite Hsig, Hhttp. cbn. rewrite Hok. cbn. split; reflexivity.
Qed.

Lemma deepseek_invoke_rejected (this : Provider) (options : InvokeOptions) (m : Messages)
    (w : World) (st : State) (sent : list Request) (e : Error) :
  is_aborted (opt_signal options) = false ->
  OpenAI_constructor w (DeepSeek.client_of this) = Ok tt ->
  messages options = Some m ->
  openai w (wire st) (DeepSeek.client_of this) (DeepSeek.completion_params this options m)
    = (sent, Throw e) ->
  result (DeepSeek.invoke this options) w st = Throw e /\
  trace (final (DeepSeek.invoke this options) w st) =
    trace st ++ [ELog Debug;
                 ECompletionsCreate (DeepSeek.client_of this)
                   (DeepSeek.completion_params this options m) (opt_signal options)] /\
  wire (final (DeepSeek.invoke this options) w st) = wire st ++ sent.
Proof.
  intros Hsig Hnew Hm Hcall. unfold DeepSeek.invoke. run.
  rewrite Hnew, Hm. cbn. rewrite Hsig, Hcall. cbn.
  rewrite <- app_assoc. repeat split; reflexivity.
Qed.

Lemma final_bind_ret {A B} (m : M A) (f : A -> B) (w : World) (st : State) :
  final (x <- m ;; ret (f x)) w st = final m w st.
Proof. unfold final, bind, ret. destruct (m w st) as [[x|e] s]; reflexivity. Qed.

Lemma result_bind_ret {A B} (m : M A) (f : A -> B) (w : World) (st : State) :
  result (x <- m ;; ret (f x)) w st =
  match result m w st with Ok x => Ok (f x) | Throw e => Throw e end.
Proof. unfold result, bind, ret. destruct (m w st) as [[x|e] s]; reflexivity. Qed.

(** C2, as the adapters implement it.  A non-2xx answer to the request of
    the llama.cpp or the Ollama adapter's [invoke] makes the call reject,
    after that one request and no other.  The llama.cpp adapter's message
    carries the status code, the status text and the text of the body.  The
    Ollama adapter's message carries the status text only.  The DeepSeek
    adapter makes one call to the client library and, when that call
    rejects, rejects with the very same error; what the library sent
    within that call is on the wire, however many requests it was. *)
Theorem invoke_backend_error (a : Adapter) (this : Provider) (options : InvokeOptions)
    (w : World) (st : State) :
  is_aborted (opt_signal options) = false ->
  match a with
  | LlamaCppAdapter =>
      forall response,
        http w (wire st) (LlamaCpp.infill_request this options) = Ok response ->
        ok response = false ->
        exists e,
          result (invoke a this options) w st = Throw e /\
          includes (message e) (pretty (status response)) = true /\
          includes (message e) (statusText response) = true /\
          (forall t, body_text response = Ok t -> includes (message e) t = true) /\
          fetches (trace (final (invoke a this options) w st)) =
            fetches (trace st) ++ [LlamaCpp.infill_request this options] /\
          wire (final (invoke a this options) w st) =
            wire st ++ [LlamaCpp.infill_request this options]
  | OllamaAdapter =>
      forall m response,
        messages options = Some m ->
        http w (wire st) (Ollama.generate_request this options m) = Ok response ->
        ok response = false ->
        result (invoke a this options) w st =
          Throw (new_Error ("Ollama API request failed: " +:+ statusText response)) /\
        fetches (trace (final (invoke a this options) w st)) =
          fetches (trace st) ++ [Ollama.generate_request this options m] /\
        wire (final (invoke a this options) w st) =
          wire st ++ [Ollama.generate_request this options m]
  | DeepSeekAdapter =>
      forall m sent e,
        OpenAI_constructor w (DeepSeek.client_of this) = Ok tt ->
        messages options = Some m ->
        openai w (wire st) (DeepSeek.client_of this)
          (DeepSeek.completion_params this options m) = (sent, Throw e) ->
        result (invoke a this options) w st = Throw e /\
        trace (final (invoke a this options) w st) =
          trace st ++ [ELog Debug;
                       ECompletionsCreate (DeepSeek.client_of this)
                         (DeepSeek.completion_params this options m) (opt_signal options)] /\
        wire (final (invoke a this options) w st) = wire st ++ sent
  end.
Proof.
  intros Hsig. destruct a; unfold invoke.
  - intros response Hhttp Hok.
    destruct (llamacpp_invoke_not_ok this options w st response Hsig Hhttp Hok) as [Hres Hwire].
    eexists. rewrite result_bind_ret, final_bind_ret, Hres.
    split; [reflexivity|]. cbn [message new_Error].
    split; [|split; [|split; [|split]]].
    + apply includes_later, includes_here.
    + do 3 apply includes_later. apply includes_here.
    + intros t ->. do 5 apply includes_later. apply includes_end.
    + apply llamacpp_invoke_fetches.
    + exact Hwire.
  - intros m sent e Hnew Hm Hcall.
    destruct (deepseek_invoke_rejected this options m w st sent e Hsig Hnew Hm Hcall)
      as (Hres & Htrace & Hwire).
    rewrite result_bind_ret, final_bind_ret, Hres. auto.
  - intros m response Hm Hhttp Hok.
    destruct (ollama_invoke_not_ok this options m w st response Hsig Hm Hhttp Hok)
      as [Hres Hwire].
    split; [exact Hres|]. split; [apply ollama_invoke_fetches; exact Hm | exact Hwire].
Qed.

Lemma invoke_backend_error_witness :
  exists e,
    result (invoke LlamaCppAdapter sample_provider (sample_options None))
      (sample_world (sample_response 404 "File Not Found" JNull) (Ok JNull)) empty_state
      = Throw e /\
    includes (message e) "404" = true /\
    includes (message e) "Not Found" = true /\
    includes (message e) "File Not Found" = true.
Proof.
  destruct (invoke_backend_error LlamaCppAdapter sample_provider (sample_options None)
              (sample_world (sample_response 404 "File Not Found" JNull) (Ok JNull))
              empty_state eq_refl (sample_response 404 "File Not Found" JNull)
              eq_refl eq_refl)
    as (e & Hres & Hstatus & Htext & Hbody & _).
  exists e. split; [exact Hres|]. split; [exact Hstatus|]. split; [exact Htext|].
  exact (Hbody "File Not Found" eq_refl).
Defined.

(** C2 fails as stated.  For Ollama, on a 404 answer the message of the
    error carries neither the status code nor the message in the body.  For
    DeepSeek, the error comes after as many requests as the client library
    chose to send, three of them here: the adapter builds the client
    without limiting its retries. *)
Lemma invoke_backend_error_counterexample :
  (ok (sample_response 404 "model 'codellama:7b' not found" JNull) = false /\
   result (invoke OllamaAdapter ollama_provider (sample_options None))
     (sample_world (sample_response 404 "model 'codellama:7b' not found" JNull) (Ok JNull))
     empty_state = Throw (new_Error "Ollama API request failed: Not Found") /\
   includes "Ollama API request failed: Not Found" "404" = false /\
   includes "Ollama API request failed: Not Found" "model 'codellama:7b' not found" = false) /\
  (result (invoke DeepSeekAdapter (deepseek_provider "deepseek-chat") (sample_options None))
     retrying_world empty_state = Throw (mkError "Error" "500 status code (no body)") /\
   length (wire (final (invoke DeepSeekAdapter (deepseek_provider "deepseek-chat")
                          (sample_options None))
                   retrying_world empty_state)) = 3).
Proof. repeat split; reflexivity. Qed.

(** ** The tokenizer of the DeepSeek adapter *)

Lemma deepseek_configure_stores (nickname : string) (w : World) (st : State) :
  result (DeepSeek.configure nickname) w st = Ok tt ->
  exists c, store (final (DeepSeek.configure nickname) w st) !! nickname = Some c /\
            model c = Some (JStr "deepseek-chat").
Proof.
  unfold DeepSeek.configure, DeepSeek.getApiKeyInput, window_showInputBox,
    Tokenizers_download_, progress_report, lookup_metadata.
  run.
  repeat branch; intros H; try discriminate H;
    (eexists; split; [apply lookup_insert_eq|reflexivity]).
Qed.

(** C3, as the adapter implements it.  [initialize] asks the tokenizer
    cache for the handle of the model named in the stored configuration,
    whatever that is, and keeps the handle it gets; every configuration
    that DeepSeek's [configure] stores names the model "deepseek-chat";
    [encode] and [decode] are computations on the handle kept, and nothing
    they do reaches a backend. *)
Theorem deepseek_tokenizer_key :
  (forall this w st,
     trace (final (DeepSeek.initialize this) w st) =
       trace st ++ [ETokenizersGet (model (config this))] /\
     forall tk, Tokenizers_get w (model (config this)) = Ok tk ->
       result (DeepSeek.initialize this) w st =
         Ok {| config := config this; tokenizer := Some tk |}) /\
  (forall nickname w st,
     result (DeepSeek.configure nickname) w st = Ok tt ->
     exists c, store (final (DeepSeek.configure nickname) w st) !! nickname = Some c /\
               model c = Some (JStr "deepseek-chat")) /\
  (forall this tk w st,
     tokenizer this = Some tk ->
     (forall text,
        result (DeepSeek.encode this text) w st = Ok (tk_encode tk text false) /\
        trace (final (DeepSeek.encode this text) w st) = trace st ++ [ELog Debug] /\
        wire (final (DeepSeek.encode this text) w st) = wire st) /\
     (forall tokens,
        result (DeepSeek.decode this tokens) w st = Ok (tk_decode tk tokens false) /\
        trace (final (DeepSeek.decode this tokens) w st) = trace st ++ [ELog Debug] /\
        wire (final (DeepSeek.decode this tokens) w st) = wire st)).
Proof.
  split; [|split].
  - intros this w st. unfold DeepSeek.initialize, Tokenizers_get_. run. split.
    + destruct (Tokenizers_get w (model (config this))); reflexivity.
    + intros tk ->. reflexivity.
  - apply deepseek_configure_stores.
  - intros this tk w st Htk.
    unfold DeepSeek.encode, DeepSeek.decode, tokenizer_encode, tokenizer_decode.
    rewrite Htk. run. auto.
Qed.

Lemma deepseek_tokenizer_key_witness :
  exists c, store (final (DeepSeek.configure "hosted") deepseek_world empty_state) !! "hosted"
              = Some c /\
            model c = Some (JStr "deepseek-chat").
Proof.
  exact (proj1 (proj2 deepseek_tokenizer_key) "hosted" deepseek_world empty_state eq_refl).
Defined.

(** C3 fails as stated: the key is not fixed.  A DeepSeek provider built on
    a stored configuration that names another model (here the one the
    Ollama adapter stored under "coder") asks the cache for that model. *)
Lemma deepseek_tokenizer_key_counterexample :
  trace (final (this <- DeepSeek.constructor "coder" ;; DeepSeek.initialize this)
           deepseek_world ollama_state) =
    [ELog Debug; EStorageGet "coder"; ELog Info; ETokenizersGet (Some (JStr "codellama:7b"))] /\
  Some (JStr "codellama:7b") <> Some (JStr "deepseek-chat").
Proof.
  split; [vm_compute; reflexivity|discriminate].
Qed.

(** ** Configuring Ollama *)

Lemma quiet_events (l : list Event) :
  Forall is_quiet l ->
  sets l = [] /\ fetches l = [] /\ completions l = [] /\ downloads l = [].
Proof.
  induction 1 as [|e l He _ (Hs & Hf & Hc & Hd)]; [auto|].
  destruct e; try contradiction; cbn; auto.
Qed.

(** The scan of the model list only logs, whatever the list holds. *)
Lemma scan_models_frame (w : World) (modelsList : list json) :
  forall items cw st,
    store (snd (Ollama.scan_models modelsList items cw w st)) = store st /\
    wire (snd (Ollama.scan_models modelsList items cw w st)) = wire st /\
    exists l, trace (snd (Ollama.scan_models modelsList items cw w st)) = trace st ++ l /\
              Forall is_quiet l.
Proof.
  induction modelsList as [|model rest IH]; intros items cw st.
  - cbn. repeat split. exists []. rewrite app_nil_r. auto.
  - cbn [Ollama.scan_models]. unfold lookup_metadata. unfold_monad.
    destruct (prop (Some model) "name") as [name|e]; cbn -[prop to_text];
      [destruct (to_text name); cbn -[prop to_text]|].
    + destruct (getCompletionModelMetadata w name) as [md|];
        match goal with
        | |- context [Ollama.scan_models rest ?i ?c w ?s] =>
            destruct (IH i c s) as (Hs & Hw & l & Ht & Hq)
        end;
        rewrite Hs, Hw, Ht; cbn; repeat split;
        exists (ELog Debug :: l); rewrite <- app_assoc; split;
        [reflexivity | constructor; [exact I | exact Hq]
        |reflexivity | constructor; [exact I | exact Hq]].
    + repeat split. exists []. rewrite app_nil_r. auto.
    + repeat split. exists []. rewrite app_nil_r. auto.
Qed.

Lemma prop_not_null (model : json) (k : string) :
  model <> JNull -> prop (Some model) k = Ok (prop_opt (Some model) k).
Proof. destruct model; try congruence; reflexivity. Qed.

(** The scan of a list without a recognized model either stops at an entry
    it cannot read or log, or comes back with the items and the map it was
    given; it comes back when every entry is well named. *)
Lemma scan_models_unrecognized (w : World) (modelsList : list json) :
  recognized_items w modelsList = [] ->
  forall items cw st,
    (fst (Ollama.scan_models modelsList items cw w st) = Ok (items, cw) \/
     exists e, fst (Ollama.scan_models modelsList items cw w st) = Throw e) /\
    (Forall well_named modelsList ->
     fst (Ollama.scan_models modelsList items cw w st) = Ok (items, cw)).
Proof.
  induction modelsList as [|model rest IH]; intros Hnone items cw st.
  - cbn. auto.
  - cbn [recognized_items omap list_omap] in Hnone. fold (recognized_items w rest) in Hnone.
    cbn [Ollama.scan_models]. unfold lookup_metadata. unfold_monad.
    destruct (prop (Some model) "name") as [name|e] eqn:Hname; cbn -[prop to_text].
    + assert (Hn : name = prop_opt (Some model) "name").
      { destruct model; cbn in Hname; try discriminate; inversion Hname; reflexivity. }
      destruct (getCompletionModelMetadata w (prop_opt (Some model) "name")) as [md|] eqn:Hmd;
        [discriminate Hnone|].
      destruct (to_text name) eqn:Htext; cbn -[prop to_text].
      * rewrite Hn, Hmd.
        destruct (IH Hnone items cw
                    {| store := store st; wire := wire st; trace := trace st ++ [ELog Debug] |})
          as [Hrun Hall].
        split; [exact Hrun|].
        intros Hwell. apply Hall. inversion Hwell; assumption.
      * split; [right; eauto|].
        intros Hwell. inversion Hwell as [|? ? [_ Hok] _]; subst. congruence.
    + split; [right; eauto|].
      intros Hwell. inversion Hwell as [|? ? [Hnn _] _]; subst.
      rewrite (prop_not_null model "name" Hnn) in Hname. discriminate.
Qed.

(** C7, as the adapter implements it.  When the user gives a base URL, the
    server answers [/api/tags] with a 2xx list, and the catalog recognizes
    none of the listed models, Ollama's [configure] rejects without a
    single call of the store's [set]: the store is as it was.  It rejects
    with the no-models-found error whenever every entry of the list is
    well named, that is, an object whose name has a text. *)
Theorem ollama_configure_no_models (nickname : string) (w : World) (st : State)
    (input : string) (response : Response) (data : json) (models : jsval)
    (modelsList : list json) :
  showInputBox w (Ollama.baseUrl_input (store st !! nickname)) = Some input ->
  http w (wire st) (Ollama.tags_request (trim input)) = Ok response ->
  ok response = true ->
  body_json response = Ok data ->
  prop (Some data) "models" = Ok models ->
  iterate (if truthy models then models else Some (JArr [])) = Ok modelsList ->
  recognized_items w modelsList = [] ->
  (exists e, result (Ollama.configure nickname) w st = Throw e /\
             (Forall well_named modelsList -> e = NoModelsFound)) /\
  sets (trace (final (Ollama.configure nickname) w st)) = sets (trace st) /\
  store (final (Ollama.configure nickname) w st) = store st.
Proof.
  intros Hinput Hhttp Hok Hjson Hmodels Hiter Hnone.
  unfold Ollama.configure, window_showInputBox, progress_report. unfold_monad.
  cbn -[prop iterate Ollama.scan_models sets]. rewrite Hinput.
  cbn -[prop iterate Ollama.scan_models sets].
  rewrite Hhttp. cbn -[prop iterate Ollama.scan_models sets]. rewrite Hok, Hjson.
  cbn -[prop iterate Ollama.scan_models sets].
  rewrite Hmodels. cbn -[prop iterate Ollama.scan_models sets]. rewrite Hiter.
  cbn -[Ollama.scan_models sets].
  match goal with
  | |- context [Ollama.scan_models modelsList [] [] w ?s] =>
      destruct (scan_models_frame w modelsList [] [] s) as (Hstore & Hwire & l & Htrace & Hq);
      destruct (scan_models_unrecognized w modelsList Hnone [] [] s) as [Hrun Hall];
      destruct (Ollama.scan_models modelsList [] [] w s) as [scanned s'] eqn:Hscan
  end.
  cbn [fst snd store wire trace] in *. destruct (quiet_events l Hq) as (Hsets & _).
  destruct Hrun as [-> | (e & ->)]; cbn -[sets]; rewrite Htrace, Hstore, !sets_app, Hsets;
    cbn; rewrite ?app_nil_r.
  - repeat split. eexists. split; [reflexivity|]. reflexivity.
  - repeat split. eexists. split; [reflexivity|].
    intros Hwell. specialize (Hall Hwell). discriminate Hall.
Qed.

Lemma ollama_configure_no_models_witness :
  result (Ollama.configure "coder") (sample_world (sample_response 200 "" tags_body) (Ok JNull))
    empty_state = Throw NoModelsFound /\
  store (final (Ollama.configure "coder")
           (sample_world (sample_response 200 "" tags_body) (Ok JNull)) empty_state) = ∅.
Proof.
  destruct (ollama_configure_no_models "coder"
              (sample_world (sample_response 200 "" tags_body) (Ok JNull)) empty_state
              "http://localhost:11434" (sample_response 200 "" tags_body) tags_body
              (Some (JArr [JObj [("name", JStr "llama3:8b"); ("size", JInt 4661224676)];
                           JObj [("name", JStr "mistral:7b"); ("size", JInt 4109865159)]]))
              [JObj [("name", JStr "llama3:8b"); ("size", JInt 4661224676)];
               JObj [("name", JStr "mistral:7b"); ("size", JInt 4109865159)]]
              eq_refl eq_refl eq_refl eq_refl eq_refl eq_refl eq_refl)
    as ((e & Hres & Hname) & _ & Hstore).
  split; [|exact Hstore].
  rewrite Hres. f_equal. apply Hname.
  repeat constructor; discriminate.
Defined.

(** C7 fails as stated: with no recognized model in the list the error
    need not be the no-models-found error.  A listed model whose name is an
    object with a [toString] property makes the loop throw a [TypeError] on
    its log line, before the catalog is asked. *)
Lemma ollama_configure_no_models_counterexample :
  recognized_items
    (sample_world
       (sample_response 200 ""
          (JObj [("models", JArr [JObj [("name", JObj [("toString", JInt 1)])]])]))
       (Ok JNull))
    [JObj [("name", JObj [("toString", JInt 1)])]] = [] /\
  exists e,
    result (Ollama.configure "coder")
      (sample_world
         (sample_response 200 ""
            (JObj [("models", JArr [JObj [("name", JObj [("toString", JInt 1)])]])]))
         (Ok JNull))
      empty_state = Throw e /\
    name e = "TypeError" /\
    e <> NoModelsFound.
Proof.
  split; [reflexivity|]. eexists. split; [reflexivity|]. split; [reflexivity|discriminate].
Qed.

(** ** Cancellation *)




(** ** Round trip *)



(** * Further properties of the adapters *)

(** ** The store is only written by [configure] *)

(** Constructing, initializing, encoding, decoding and invoking never write
    the configuration store, whatever the backends, the tokenizer cache and
    the client library answer. *)
Theorem queries_keep_store (a : Adapter) (nickname : string) (this : Provider)
    (options : InvokeOptions) (text : string) (tokens : list Z) (jtokens : jsval) :
  keeps_store (construct a nickname) /\
  keeps_store (initialize a this) /\
  keeps_store (invoke a this options) /\
  keeps_store (LlamaCpp.encode this text) /\
  keeps_store (LlamaCpp.decode this jtokens) /\
  keeps_store (DeepSeek.encode this text) /\
  keeps_store (DeepSeek.decode this tokens) /\
  keeps_store (Ollama.encode this text) /\
  keeps_store (Ollama.decode this tokens).
Proof.
  repeat split;
    try destruct a;
    unfold construct, initialize, invoke, LlamaCpp.constructor, DeepSeek.constructor,
      Ollama.constructor, LlamaCpp.initialize, DeepSeek.initialize, Ollama.initialize,
      LlamaCpp.invoke, DeepSeek.invoke, Ollama.invoke, LlamaCpp.encode, LlamaCpp.decode,
      DeepSeek.encode, DeepSeek.decode, Ollama.encode, Ollama.decode, Tokenizers_get_;
    run; repeat branch; tidy; reflexivity.
Qed.

(** ** Construction from a stored record *)

(** Every constructor accepts whatever record the store holds under the
    nickname, also one that another provider wrote (the provider id is not
    looked at): it resolves to an instance with that record and no
    tokenizer yet, and calls no transport. *)
Theorem construct_stored (a : Adapter) (nickname : string) (c : ModelConfig)
    (w : World) (st : State) :
  store st !! nickname = Some c ->
  result (construct a nickname) w st = Ok {| config := c; tokenizer := None |} /\
  wire (final (construct a nickname) w st) = wire st /\
  fetches (trace (final (construct a nickname) w st)) = fetches (trace st) /\
  completions (trace (final (construct a nickname) w st)) = completions (trace st).
Proof.
  intros Hc.
  destruct a; unfold construct, LlamaCpp.constructor, DeepSeek.constructor, Ollama.constructor;
    run; rewrite Hc; cbn; tidy; auto.
Qed.

Lemma construct_stored_witness :
  result (construct DeepSeekAdapter "coder") deepseek_world ollama_state =
    Ok {| config := ollama_config; tokenizer := None |} /\
  cfg_providerId ollama_config = Ollama.providerId.
Proof.
  split; [|reflexivity].
  apply (construct_stored DeepSeekAdapter "coder" ollama_config deepseek_world ollama_state).
  reflexivity.
Defined.

(** ** The tokenizer handle over the life of an instance *)

(** An instance of the DeepSeek or Ollama adapter that has not been
    initialized cannot encode or decode: straight after construction both
    reject with a [TypeError], and nothing is sent anywhere. *)
Theorem codec_before_initialize (nickname : string) (c : ModelConfig) (text : string)
    (tokens : list Z) (w : World) (st : State) :
  store st !! nickname = Some c ->
  (exists e, result (this <- DeepSeek.constructor nickname ;; DeepSeek.encode this text) w st
               = Throw e /\ name e = "TypeError") /\
  (exists e, result (this <- DeepSeek.constructor nickname ;; DeepSeek.decode this tokens) w st
               = Throw e /\ name e = "TypeError") /\
  (exists e, result (this <- Ollama.constructor nickname ;; Ollama.encode this text) w st
               = Throw e /\ name e = "TypeError") /\
  (exists e, result (this <- Ollama.constructor nickname ;; Ollama.decode this tokens) w st
               = Throw e /\ name e = "TypeError") /\
  stays_local (this <- DeepSeek.constructor nickname ;; DeepSeek.encode this text) /\
  stays_local (this <- DeepSeek.constructor nickname ;; DeepSeek.decode this tokens) /\
  stays_local (this <- Ollama.constructor nickname ;; Ollama.encode this text) /\
  stays_local (this <- Ollama.constructor nickname ;; Ollama.decode this tokens).
Proof.
  intros Hc.
  repeat split; try intros w' st';
    unfold DeepSeek.constructor, Ollama.constructor, DeepSeek.encode, DeepSeek.decode,
      Ollama.encode, Ollama.decode, tokenizer_encode, tokenizer_decode;
    run; rewrite ?Hc; cbn; repeat branch; tidy; try reflexivity;
    eexists; split; reflexivity.
Qed.

Lemma codec_before_initialize_witness :
  exists e, result (this <- Ollama.constructor "coder" ;; Ollama.encode this "hello")
              deepseek_world ollama_state = Throw e /\ name e = "TypeError".
Proof.
  exact (proj1 (proj2 (proj2 (codec_before_initialize "coder" ollama_config "hello" []
                                deepseek_world ollama_state eq_refl)))).
Defined.

(** Construct, initialize, encode, decode: with a record stored under the
    nickname, the DeepSeek and Ollama adapters ask the tokenizer cache for
    the handle of the record's model and then encode and decode with that
    handle, special tokens off in both directions; nothing reaches a
    backend.  When the cache fails, [initialize] rejects with the cache's
    error. *)
Theorem codec_after_initialize (nickname : string) (c : ModelConfig) (text : string)
    (w : World) (st : State) :
  store st !! nickname = Some c ->
  let deepseek :=
    this <- DeepSeek.constructor nickname ;;
    this <- DeepSeek.initialize this ;;
    tokens <- DeepSeek.encode this text ;;
    DeepSeek.decode this tokens in
  let ollama :=
    this <- Ollama.constructor nickname ;;
    this <- Ollama.initialize this ;;
    tokens <- Ollama.encode this text ;;
    Ollama.decode this tokens in
  (forall tk, Tokenizers_get w (model c) = Ok tk ->
     result deepseek w st = Ok (tk_decode tk (tk_encode tk text false) false) /\
     result ollama w st = Ok (tk_decode tk (tk_encode tk text false) false)) /\
  (forall e, Tokenizers_get w (model c) = Throw e ->
     result (this <- DeepSeek.constructor nickname ;; DeepSeek.initialize this) w st = Throw e /\
     result (this <- Ollama.constructor nickname ;; Ollama.initialize this) w st = Throw e) /\
  wire (final deepseek w st) = wire st /\
  wire (final ollama w st) = wire st.
Proof.
  intros Hc deepseek ollama. subst deepseek ollama.
  unfold DeepSeek.constructor, Ollama.constructor, DeepSeek.initialize, Ollama.initialize,
    DeepSeek.encode, DeepSeek.decode, Ollama.encode, Ollama.decode, tokenizer_encode,
    tokenizer_decode, Tokenizers_get_.
  run. rewrite Hc. cbn.
  split; [|split; [|split]].
  - intros tk ->. cbn. auto.
  - intros e ->. cbn. auto.
  - destruct (Tokenizers_get w (model c)); reflexivity.
  - destruct (Tokenizers_get w (model c)); reflexivity.
Qed.

Lemma codec_after_initialize_witness :
  result (this <- Ollama.constructor "coder" ;;
          this <- Ollama.initialize this ;;
          tokens <- Ollama.encode this "hello" ;;
          Ollama.decode this tokens) deepseek_world ollama_state = Ok "hello".
Proof.
  exact (proj2 (proj1 (codec_after_initialize "coder" ollama_config "hello"
                         deepseek_world ollama_state eq_refl)
                  sample_tokenizer eq_refl)).
Defined.

(** ** llama.cpp: the tokenization endpoints *)

(** llama.cpp's [decode] of an array of tokens always hands exactly one
    request to [fetch]: a POST to [baseUrl + "/detokenize"] with the body
    [{tokens}], which reaches the server, and on a 2xx answer resolves to
    the [content] property of the body.  On [undefined] or [null] it raises
    a [TypeError] before calling [fetch]. *)
Theorem llamacpp_decode_request (this : Provider) (w : World) (st : State) :
  (forall tokens : list json,
     let request :=
       {| url := baseUrl (config this) +:+ "/detokenize";
          method := "POST";
          headers := [("Content-Type", "application/json")];
          body := Some (JObj [("tokens", JArr tokens)]);
          signal := None |} in
     fetches (trace (final (LlamaCpp.decode this (Some (JArr tokens))) w st)) =
       fetches (trace st) ++ [request] /\
     wire (final (LlamaCpp.decode this (Some (JArr tokens))) w st) = wire st ++ [request] /\
     forall response doc,
       http w (wire st) request = Ok response ->
       ok response = true ->
       body_json response = Ok doc ->
       result (LlamaCpp.decode this (Some (JArr tokens))) w st = prop (Some doc) "content") /\
  (forall tokens : jsval,
     tokens = None \/ tokens = Some JNull ->
     (exists e, result (LlamaCpp.decode this tokens) w st = Throw e /\ name e = "TypeError") /\
     final (LlamaCpp.decode this tokens) w st = st).
Proof.
  split.
  - intros tokens request.
    unfold LlamaCpp.decode. unfold_monad. cbn [read_length]. cbn -[prop].
    change (LlamaCpp.detokenize_request this (Some (JArr tokens))) with request.
    repeat split.
    + repeat branch; tidy; reflexivity.
    + repeat branch; reflexivity.
    + intros response doc -> Hok Hjson. cbn -[prop]. rewrite Hok, Hjson. cbn -[prop].
      destruct (prop (Some doc) "content"); reflexivity.
  - intros tokens [-> | ->]; unfold LlamaCpp.decode; run; split;
      try (destruct st; reflexivity); eexists; split; reflexivity.
Qed.

Lemma llamacpp_decode_request_witness :
  result (LlamaCpp.decode sample_provider (Some (JArr [JInt 15339])))
    (sample_world (sample_response 200 "" (JObj [("content", JStr "hello")])) (Ok JNull))
    empty_state = Ok (Some (JStr "hello")).
Proof.
  exact (proj2 (proj2 (proj1 (llamacpp_decode_request sample_provider
                                (sample_world (sample_response 200 ""
                                                 (JObj [("content", JStr "hello")])) (Ok JNull))
                                empty_state)
                         [JInt 15339]))
               (sample_response 200 "" (JObj [("content", JStr "hello")]))
               (JObj [("content", JStr "hello")]) eq_refl eq_refl eq_refl).
Defined.

(** A non-2xx answer makes llama.cpp's [encode] of a text and [decode] of an
    array of tokens reject with a message that carries the status code and
    the status text; the body of the answer is not read, and the one
    request is not repeated. *)
Theorem llamacpp_codec_not_ok (this : Provider) (text : string) (tokens : list json)
    (w : World) (st : State) (response : Response) :
  ok response = false ->
  (http w (wire st) (LlamaCpp.tokenize_request this text) = Ok response ->
   result (LlamaCpp.encode this text) w st =
     Throw (new_Error ("Failed to tokenize text: " +:+ pretty (status response)
                       +:+ " " +:+ statusText response)) /\
   wire (final (LlamaCpp.encode this text) w st) =
     wire st ++ [LlamaCpp.tokenize_request this text]) /\
  (http w (wire st) (LlamaCpp.detokenize_request this (Some (JArr tokens))) = Ok response ->
   result (LlamaCpp.decode this (Some (JArr tokens))) w st =
     Throw (new_Error ("Failed to detokenize tokens: " +:+ pretty (status response)
                       +:+ " " +:+ statusText response)) /\
   wire (final (LlamaCpp.decode this (Some (JArr tokens))) w st) =
     wire st ++ [LlamaCpp.detokenize_request this (Some (JArr tokens))]).
Proof.
  intros Hok. split.
  - intros Hhttp. unfold LlamaCpp.encode. run. rewrite Hhttp. cbn. rewrite Hok. cbn. auto.
  - intros Hhttp.
    unfold LlamaCpp.decode. unfold_monad. cbn [read_length]. cbn. rewrite Hhttp. cbn.
    rewrite Hok. cbn. auto.
Qed.

Lemma llamacpp_codec_not_ok_witness :
  result (LlamaCpp.encode sample_provider "hello")
    (sample_world (sample_response 404 "" JNull) (Ok JNull)) empty_state =
    Throw (new_Error "Failed to tokenize text: 404 Not Found").
Proof.
  exact (proj1 (proj1 (llamacpp_codec_not_ok sample_provider "hello" []
                         (sample_world (sample_response 404 "" JNull) (Ok JNull))
                         empty_state (sample_response 404 "" JNull) eq_refl)
                  eq_refl)).
Defined.

(** ** Failures on the way to a completion *)

(** The llama.cpp and Ollama adapters add nothing to a failure of the
    transport: when [fetch] rejects (the server cannot be reached), or when
    a 2xx answer has a body that is not JSON, [invoke] rejects with that
    very error. *)
Theorem invoke_failure_propagates (this : Provider) (options : InvokeOptions)
    (w : World) (st : State) (e : Error) :
  is_aborted (opt_signal options) = false ->
  (http w (wire st) (LlamaCpp.infill_request this options) = Throw e ->
   result (LlamaCpp.invoke this options) w st = Throw e) /\
  (forall response,
     http w (wire st) (LlamaCpp.infill_request this options) = Ok response ->
     ok response = true ->
     body_json response = Throw e ->
     result (LlamaCpp.invoke this options) w st = Throw e) /\
  (forall m,
     messages options = Some m ->
     http w (wire st) (Ollama.generate_request this options m) = Throw e ->
     result (Ollama.invoke this options) w st = Throw e) /\
  (forall m response,
     messages options = Some m ->
     http w (wire st) (Ollama.generate_request this options m) = Ok response ->
     ok response = true ->
     body_json response = Throw e ->
     result (Ollama.invoke this options) w st = Throw e).
Proof.
  intros Hsig. unfold LlamaCpp.invoke, Ollama.invoke. run. rewrite Hsig.
  repeat split.
  - intros ->. reflexivity.
  - intros response -> Hok Hjson. cbn. rewrite Hok, Hjson. reflexivity.
  - intros m -> Hhttp. cbn. rewrite Hhttp. reflexivity.
  - intros m response -> Hhttp Hok Hjson. cbn. rewrite Hhttp. cbn.
    rewrite Hok, Hjson. reflexivity.
Qed.

Lemma invoke_failure_propagates_witness :
  result (Ollama.invoke ollama_provider (sample_options None))
    (sample_world {| status := 200; statusText := "OK"; body_text := Ok "<html>";
                     body_json := Throw (mkError "SyntaxError" "Unexpected token <") |}
       (Ok JNull))
    empty_state = Throw (mkError "SyntaxError" "Unexpected token <").
Proof.
  exact (proj2 (proj2 (proj2 (invoke_failure_propagates ollama_provider (sample_options None)
                                (sample_world
                                   {| status := 200; statusText := "OK";
                                      body_text := Ok "<html>";
                                      body_json :=
                                        Throw (mkError "SyntaxError" "Unexpected token <") |}
                                   (Ok JNull))
                                empty_state (mkError "SyntaxError" "Unexpected token <")
                                eq_refl)))
               {| prefix := Some "def add(a, b):"; suffix := Some "" |}
               {| status := 200; statusText := "OK"; body_text := Ok "<html>";
                  body_json := Throw (mkError "SyntaxError" "Unexpected token <") |}
               eq_refl eq_refl eq_refl eq_refl).
Defined.

Lemma prop_TypeError (v : jsval) (k : string) (e : Error) :
  prop v k = Throw e -> name e = "TypeError".
Proof. destruct v as [[]|]; cbn; intros H; try discriminate H; injection H as <-; reflexivity. Qed.

Lemma call_toFixed_opt_TypeError (v : jsval) (e : Error) :
  call_toFixed_opt v = Throw e -> name e = "TypeError".
Proof. destruct v as [[]|]; cbn; intros H; try discriminate H; injection H as <-; reflexivity. Qed.

Lemma to_text_TypeError (v : jsval) (e : Error) :
  to_text v = Throw e -> name e = "TypeError".
Proof.
  unfold to_text. destruct v as [x|]; [destruct (has_text x)|]; intros H;
    try discriminate H; injection H as <-; reflexivity.
Qed.

(** llama.cpp's [invoke] rejects a 2xx answer with a [TypeError] when the
    body is [null], when [content] is neither absent, [null] nor a string,
    and when [timings.predicted_per_second] is neither absent, [null] nor a
    number, in the last case even though the completion is there. *)
Theorem llamacpp_invoke_ill_typed (this : Provider) (options : InvokeOptions)
    (w : World) (st : State) (response : Response) (doc : json) :
  is_aborted (opt_signal options) = false ->
  http w (wire st) (LlamaCpp.infill_request this options) = Ok response ->
  ok response = true ->
  body_json response = Ok doc ->
  doc = JNull \/
  (exists o v, doc = JObj o /\ assoc "content" o = Some v /\
               v <> JNull /\ is_string v = false) \/
  (exists o t v, doc = JObj o /\ assoc "timings" o = Some (JObj t) /\
                 assoc "predicted_per_second" t = Some v /\
                 v <> JNull /\ is_number v = false) ->
  exists e, result (LlamaCpp.invoke this options) w st = Throw e /\ name e = "TypeError".
Proof.
  intros Hsig Hhttp Hok Hjson Hill.
  unfold LlamaCpp.invoke. unfold_monad. quiet_cbn.
  rewrite Hsig, Hhttp. quiet_cbn. rewrite Hok, Hjson. quiet_cbn.
  destruct Hill as [-> | [(o & v & -> & Hc & Hnn & Hstr) | (o & t & v & -> & Ht & Hp & Hnn & Hnum)]].
  - cbn. eexists. split; reflexivity.
  - rewrite !prop_object, Hc.
    assert (Hsub : exists e, call_substring (coalesce (Some v) (JStr "")) = Throw e /\
                             name e = "TypeError")
      by (destruct v; try congruence; try discriminate; eexists; split; reflexivity).
    destruct Hsub as (e & Hsub & He).
    repeat (rewrite ?prop_object, ?Hsub; quiet_cbn; try quiet_branch;
            eauto using prop_TypeError, call_toFixed_opt_TypeError, to_text_TypeError).
  - rewrite !prop_object, Ht. change (truthy (Some (JObj t))) with true. quiet_cbn.
    assert (Hfix : exists e, call_toFixed_opt (Some v) = Throw e /\ name e = "TypeError")
      by (destruct v; try congruence; try discriminate; eexists; split; reflexivity).
    destruct Hfix as (e & Hfix & He).
    repeat (rewrite ?prop_object, ?Hp, ?Hfix; quiet_cbn; try quiet_branch;
            eauto using to_text_TypeError).
Qed.

Lemma llamacpp_invoke_ill_typed_witness :
  exists e,
    result (LlamaCpp.invoke sample_provider (sample_options None))
      (sample_world
         (sample_response 200 ""
            (JObj [("content", JStr "return a + b");
                   ("timings", JObj [("predicted_per_second", JStr "41.7")])]))
         (Ok JNull))
      empty_state = Throw e /\
    name e = "TypeError".
Proof.
  apply (llamacpp_invoke_ill_typed sample_provider (sample_options None)
           (sample_world
              (sample_response 200 ""
                 (JObj [("content", JStr "return a + b");
                        ("timings", JObj [("predicted_per_second", JStr "41.7")])]))
              (Ok JNull))
           empty_state
           (sample_response 200 ""
              (JObj [("content", JStr "return a + b");
                     ("timings", JObj [("predicted_per_second", JStr "41.7")])]))
           (JObj [("content", JStr "return a + b");
                  ("timings", JObj [("predicted_per_second", JStr "41.7")])])
           eq_refl eq_refl eq_refl eq_refl).
  right. right.
  exists [("content", JStr "return a + b");
          ("timings", JObj [("predicted_per_second", JStr "41.7")])],
    [("predicted_per_second", JStr "41.7")], (JStr "41.7").
  repeat split; [discriminate].
Defined.

(** ** DeepSeek: the completion call *)

(** With [messages] present and a client that can be built, DeepSeek's
    [invoke] makes exactly one call of [completions.create], on a client
    with the API key and base URL of the stored record, for the record's
    model, with the caller's signal; it calls [fetch] never.  Absent
    [maxTokens], [stop] and [temperature] are left out of the parameters:
    this adapter supplies no defaults. *)
Theorem deepseek_invoke_call (this : Provider) (options : InvokeOptions) (m : Messages)
    (w : World) (st : State) :
  messages options = Some m ->
  OpenAI_constructor w (DeepSeek.client_of this) = Ok tt ->
  let params := DeepSeek.completion_params this options m in
  completions (trace (final (DeepSeek.invoke this options) w st)) =
    completions (trace st) ++
    [({| client_apiKey := apiKey (config this); client_baseURL := baseUrl (config this) |},
      params, opt_signal options)] /\
  fetches (trace (final (DeepSeek.invoke this options) w st)) = fetches (trace st) /\
  prop_opt (Some params) "model" = model (config this) /\
  prop_opt (Some params) "prompt" = JStr <$> prefix m /\
  prop_opt (Some params) "suffix" = JStr <$> suffix m /\
  (maxTokens options = None -> prop_opt (Some params) "max_tokens" = None) /\
  (stop options = None -> prop_opt (Some params) "stop" = None) /\
  (temperature options = None -> prop_opt (Some params) "temperature" = None).
Proof.
  intros Hm Hnew params. split; [|split].
  - unfold DeepSeek.invoke. run. rewrite Hnew, Hm. cbn.
    repeat branch; tidy; reflexivity.
  - unfold DeepSeek.invoke. run. rewrite Hnew, Hm. cbn.
    repeat branch; tidy; reflexivity.
  - subst params. unfold DeepSeek.completion_params, object.
    destruct (prefix m), (model (config this)), (suffix m), (maxTokens options),
      (stop options), (temperature options); cbn; repeat split; intros; congruence.
Qed.

Lemma deepseek_invoke_call_witness :
  DeepSeek.completion_params (deepseek_provider "deepseek-chat")
    {| messages := Some {| prefix := Some "def f():"; suffix := Some "" |};
       maxTokens := None; stop := None; temperature := None; opt_signal := None |}
    {| prefix := Some "def f():"; suffix := Some "" |} =
  JObj [("prompt", JStr "def f():"); ("model", JStr "deepseek-chat"); ("suffix", JStr "")] /\
  prop_opt (Some (DeepSeek.completion_params (deepseek_provider "deepseek-chat")
    {| messages := Some {| prefix := Some "def f():"; suffix := Some "" |};
       maxTokens := None; stop := None; temperature := None; opt_signal := None |}
    {| prefix := Some "def f():"; suffix := Some "" |})) "max_tokens" = None.
Proof.
  split; [reflexivity|].
  exact (proj1 (proj2 (proj2 (proj2 (proj2 (proj2
           (deepseek_invoke_call (deepseek_provider "deepseek-chat")
              {| messages := Some {| prefix := Some "def f():"; suffix := Some "" |};
                 maxTokens := None; stop := None; temperature := None; opt_signal := None |}
              {| prefix := Some "def f():"; suffix := Some "" |}
              deepseek_world empty_state eq_refl eq_refl))))))
         eq_refl).
Defined.

(** When the client call resolves, DeepSeek's [invoke] resolves to the text
    of the first choice and ignores every other choice; a first choice
    whose text is neither absent, [null] nor a string makes it reject with
    a [TypeError]. *)
Theorem deepseek_invoke_first_choice (this : Provider) (options : InvokeOptions)
    (m : Messages) (w : World) (st : State) (sent : list Request) (doc first : json)
    (rest : list json) :
  is_aborted (opt_signal options) = false ->
  messages options = Some m ->
  OpenAI_constructor w (DeepSeek.client_of this) = Ok tt ->
  openai w (wire st) (DeepSeek.client_of this) (DeepSeek.completion_params this options m)
    = (sent, Ok doc) ->
  prop (Some doc) "choices" = Ok (Some (JArr (first :: rest))) ->
  (forall text, prop_opt (Some first) "text" = Some (JStr text) ->
     result (DeepSeek.invoke this options) w st = Ok text) /\
  (forall v, prop_opt (Some first) "text" = Some v -> v <> JNull -> is_string v = false ->
     exists e, result (DeepSeek.invoke this options) w st = Throw e /\ name e = "TypeError").
Proof.
  intros Hsig Hm Hnew Hcall Hch.
  unfold DeepSeek.invoke. unfold_monad. quiet_cbn.
  rewrite Hnew, Hm. quiet_cbn. rewrite Hsig, Hcall. quiet_cbn. rewrite Hch. quiet_cbn.
  change (first_opt (Some (JArr (first :: rest)))) with (Some first).
  split.
  - intros text ->. reflexivity.
  - intros v -> Hnn Hstr.
    destruct v; try congruence; try discriminate; cbn; eexists; split; reflexivity.
Qed.

Lemma deepseek_invoke_first_choice_witness :
  result (DeepSeek.invoke (deepseek_provider "deepseek-chat") (sample_options None))
    (sample_world (sample_response 200 "" JNull)
       (Ok (JObj [("choices", JArr [JObj [("text", JStr "return a + b")];
                                    JObj [("text", JStr "pass")]])])))
    empty_state = Ok "return a + b".
Proof.
  exact (proj1 (deepseek_invoke_first_choice (deepseek_provider "deepseek-chat")
                  (sample_options None)
                  {| prefix := Some "def add(a, b):"; suffix := Some "" |}
                  (sample_world (sample_response 200 "" JNull)
                     (Ok (JObj [("choices", JArr [JObj [("text", JStr "return a + b")];
                                                  JObj [("text", JStr "pass")]])])))
                  empty_state []
                  (JObj [("choices", JArr [JObj [("text", JStr "return a + b")];
                                           JObj [("text", JStr "pass")]])])
                  (JObj [("text", JStr "return a + b")])
                  [JObj [("text", JStr "pass")]]
                  eq_refl eq_refl eq_refl eq_refl eq_refl)
               "return a + b" eq_refl).
Defined.

(** ** Ollama: the generate request *)

(** With [messages] present, Ollama's [invoke] hands exactly one request to
    [fetch]: a POST to [baseUrl + "/api/generate"] with the caller's signal,
    for the model of the stored record, never streaming.  An empty or
    absent suffix is left out of the body, any other suffix is sent as it
    is; an absent [maxTokens] leaves [options] empty: this adapter supplies
    no default. *)
Theorem ollama_invoke_request (this : Provider) (options : InvokeOptions) (m : Messages)
    (w : World) (st : State) :
  messages options = Some m ->
  let sent := Ollama.generate_request this options m in
  fetches (trace (final (Ollama.invoke this options) w st)) = fetches (trace st) ++ [sent] /\
  url sent = baseUrl (config this) +:+ "/api/generate" /\
  method sent = "POST" /\
  signal sent = opt_signal options /\
  prop_opt (body sent) "model" = model (config this) /\
  prop_opt (body sent) "prompt" = JStr <$> prefix m /\
  prop_opt (body sent) "stream" = Some (JBool false) /\
  (suffix m = None \/ suffix m = Some "" -> prop_opt (body sent) "suffix" = None) /\
  (forall s, suffix m = Some s -> s <> "" -> prop_opt (body sent) "suffix" = Some (JStr s)) /\
  (maxTokens options = None -> prop_opt (body sent) "options" = Some (JObj [])) /\
  (forall n, maxTokens options = Some n ->
     prop_opt (body sent) "options" = Some (JObj [("num_predict", JInt n)])).
Proof.
  intros Hm sent. split; [apply ollama_invoke_fetches; exact Hm|].
  subst sent. unfold Ollama.generate_request, Ollama.generate_body, object.
  cbn [url method signal body].
  assert (Hcases : forall s : string, s <> "" -> String.eqb s "" = false)
    by (intros s Hs; apply String.eqb_neq; exact Hs).
  repeat split; intros;
    repeat match goal with
           | H : _ \/ _ |- _ => destruct H
           | H : suffix m = _ |- _ => rewrite H
           | H : maxTokens options = _ |- _ => rewrite H
           end;
    rewrite ?Hcases by assumption;
    destruct (model (config this)), (prefix m);
    try destruct (suffix m) as [s'|]; try destruct (String.eqb s' "");
    try destruct (maxTokens options); reflexivity.
Qed.

Lemma ollama_invoke_request_witness :
  body (Ollama.generate_request ollama_provider (sample_options None)
          {| prefix := Some "def add(a, b):"; suffix := Some "" |}) =
    Some (JObj [("model", JStr "codellama:7b"); ("prompt", JStr "def add(a, b):");
                ("options", JObj [("num_predict", JInt 50)]); ("stream", JBool false)]) /\
  prop_opt (body (Ollama.generate_request ollama_provider (sample_options None)
                    {| prefix := Some "def add(a, b):"; suffix := Some "" |})) "suffix" = None.
Proof.
  split; [reflexivity|].
  exact (proj1 (proj2 (proj2 (proj2 (proj2 (proj2 (proj2 (proj2
           (ollama_invoke_request ollama_provider (sample_options None)
              {| prefix := Some "def add(a, b):"; suffix := Some "" |}
              (sample_world (sample_response 200 "" JNull) (Ok JNull)) empty_state
              eq_refl))))))))
         (or_intror eq_refl)).
Defined.

(** On a 2xx answer whose body is JSON other than [null], Ollama's [invoke]
    resolves to the [response] property of the body when that property has
    a text and, if the body has both [eval_duration] and [eval_count], so
    do these two; when one of the values it writes to the log has no text,
    and when the body is [null], it rejects with a [TypeError]. *)
Theorem ollama_invoke_response (this : Provider) (options : InvokeOptions) (m : Messages)
    (w : World) (st : State) (response : Response) (doc : json) :
  is_aborted (opt_signal options) = false ->
  messages options = Some m ->
  http w (wire st) (Ollama.generate_request this options m) = Ok response ->
  ok response = true ->
  body_json response = Ok doc ->
  (doc <> JNull ->
   (is_defined (prop_opt (Some doc) "eval_duration") = true ->
    is_defined (prop_opt (Some doc) "eval_count") = true ->
    to_text (prop_opt (Some doc) "eval_duration") = Ok tt /\
    to_text (prop_opt (Some doc) "eval_count") = Ok tt) ->
   to_text (prop_opt (Some doc) "response") = Ok tt ->
   result (Ollama.invoke this options) w st = Ok (prop_opt (Some doc) "response")) /\
  (doc <> JNull ->
   (is_defined (prop_opt (Some doc) "eval_duration") = true /\
    is_defined (prop_opt (Some doc) "eval_count") = true /\
    (to_text (prop_opt (Some doc) "eval_duration") <> Ok tt \/
     to_text (prop_opt (Some doc) "eval_count") <> Ok tt)) \/
   to_text (prop_opt (Some doc) "response") <> Ok tt ->
   exists e, result (Ollama.invoke this options) w st = Throw e /\ name e = "TypeError") /\
  (doc = JNull ->
   exists e, result (Ollama.invoke this options) w st = Throw e /\ name e = "TypeError").
Proof.
  intros Hsig Hm Hhttp Hok Hjson.
  unfold Ollama.invoke. unfold_monad. cbn -[prop prop_opt to_text is_defined].
  rewrite Hm. cbn -[prop prop_opt to_text is_defined].
  rewrite Hsig, Hhttp. cbn -[prop prop_opt to_text is_defined].
  rewrite Hok, Hjson. cbn -[prop prop_opt to_text is_defined].
  repeat split.
  - intros Hnn Hstats Hresp. rewrite !(prop_not_null doc _ Hnn), Hresp.
    destruct (is_defined (prop_opt (Some doc) "eval_duration"));
      destruct (is_defined (prop_opt (Some doc) "eval_count")); try reflexivity.
    destruct (Hstats eq_refl eq_refl) as [-> ->]. reflexivity.
  - intros Hnn Hbad. rewrite !(prop_not_null doc _ Hnn).
    destruct Hbad as [(-> & -> & Hbad) | Hbad].
    + destruct (to_text (prop_opt (Some doc) "eval_duration")) as [[]|e1] eqn:E1;
        [|eauto using to_text_TypeError].
      destruct (to_text (prop_opt (Some doc) "eval_count")) as [[]|e2] eqn:E2;
        [|eauto using to_text_TypeError].
      destruct Hbad; congruence.
    + destruct (to_text (prop_opt (Some doc) "response")) as [[]|e3] eqn:E3; [congruence|].
      destruct (is_defined (prop_opt (Some doc) "eval_duration"));
        destruct (is_defined (prop_opt (Some doc) "eval_count"));
        destruct (to_text (prop_opt (Some doc) "eval_duration")) as [[]|e1] eqn:E1;
        destruct (to_text (prop_opt (Some doc) "eval_count")) as [[]|e2] eqn:E2;
        eauto using to_text_TypeError.
  - intros ->. cbn. eexists. split; reflexivity.
Qed.

Lemma ollama_invoke_response_witness :
  result (Ollama.invoke ollama_provider (sample_options None))
    (sample_world
       (sample_response 200 ""
          (JObj [("response", JStr "return a + b"); ("eval_count", JStr "many");
                 ("eval_duration", JNull)]))
       (Ok JNull))
    empty_state = Ok (Some (JStr "return a + b")).
Proof.
  exact (proj1 (ollama_invoke_response ollama_provider (sample_options None)
                  {| prefix := Some "def add(a, b):"; suffix := Some "" |}
                  (sample_world
                     (sample_response 200 ""
                        (JObj [("response", JStr "return a + b"); ("eval_count", JStr "many");
                               ("eval_duration", JNull)]))
                     (Ok JNull))
                  empty_state
                  (sample_response 200 ""
                     (JObj [("response", JStr "return a + b"); ("eval_count", JStr "many");
                            ("eval_duration", JNull)]))
                  (JObj [("response", JStr "return a + b"); ("eval_count", JStr "many");
                         ("eval_duration", JNull)])
                  eq_refl eq_refl eq_refl eq_refl eq_refl)
               ltac:(discriminate) (fun _ _ => conj eq_refl eq_refl) eq_refl).
Defined.

(** ** Options without [messages] *)

(** The DeepSeek and Ollama adapters read [options.messages] unguarded:
    when it is absent, [invoke] rejects with a [TypeError] before any
    transport call (for DeepSeek, provided the client can be built, which
    comes first). *)
Theorem invoke_without_messages (this : Provider) (options : InvokeOptions)
    (w : World) (st : State) :
  messages options = None ->
  ((exists e, result (Ollama.invoke this options) w st = Throw e /\ name e = "TypeError") /\
   trace (final (Ollama.invoke this options) w st) = trace st ++ [ELog Debug] /\
   wire (final (Ollama.invoke this options) w st) = wire st) /\
  ((OpenAI_constructor w (DeepSeek.client_of this) = Ok tt ->
    exists e, result (DeepSeek.invoke this options) w st = Throw e /\ name e = "TypeError") /\
   trace (final (DeepSeek.invoke this options) w st) = trace st ++ [ELog Debug] /\
   wire (final (DeepSeek.invoke this options) w st) = wire st).
Proof.
  intros Hm. unfold Ollama.invoke, DeepSeek.invoke. run. rewrite Hm. cbn.
  repeat split.
  - eexists. split; reflexivity.
  - intros ->. cbn. eexists. split; reflexivity.
  - destruct (OpenAI_constructor w (DeepSeek.client_of this)); reflexivity.
  - destruct (OpenAI_constructor w (DeepSeek.client_of this)); reflexivity.
Qed.

Lemma invoke_without_messages_witness :
  trace (final (Ollama.invoke ollama_provider
                  {| messages := None; maxTokens := Some 50%Z; stop := None;
                     temperature := None; opt_signal := None |})
           (sample_world (sample_response 200 "" JNull) (Ok JNull)) empty_state) = [ELog Debug].
Proof.
  exact (proj1 (proj2 (proj1 (invoke_without_messages ollama_provider
                                {| messages := None; maxTokens := Some 50%Z; stop := None;
                                   temperature := None; opt_signal := None |}
                                (sample_world (sample_response 200 "" JNull) (Ok JNull))
                                empty_state eq_refl)))).
Defined.

(** ** Configuration: what reaches the store *)

Ltac use_scan_frame :=
  match goal with
  | H : Ollama.scan_models ?l ?i ?c ?w ?s = (_, ?s') |- _ =>
      let F := fresh "F" in
      pose proof (scan_models_frame w l i c s) as F; rewrite H in F; cbn in F;
      let Fs := fresh "Fs" in
      let Fw := fresh "Fw" in
      let lq := fresh "lq" in
      let Ft := fresh "Ft" in
      let Fq := fresh "Fq" in
      destruct F as (Fs & Fw & lq & Ft & Fq);
      let Q := fresh "Q" in
      pose proof (quiet_events lq Fq) as Q;
      destruct Q as (? & ? & ? & ?);
      rewrite ?Fs, ?Fw, ?Ft
  end.

Lemma configure_outcome (a : Adapter) (nick : string) (w : World) (st : State) :
  all_or_nothing a nick st (configure a nick w st).
Proof.
  unfold all_or_nothing.
  destruct a; unfold configure, LlamaCpp.configure, DeepSeek.configure,
    DeepSeek.getApiKeyInput, Ollama.configure, window_showInputBox, window_showQuickPick,
    Tokenizers_download_, progress_report, lookup_metadata; unfold_monad;
    cbn -[Ollama.scan_models];
    repeat (branch; try use_scan_frame);
    tidy;
    repeat match goal with H : sets _ = [] |- _ => rewrite H end;
    rewrite ?app_nil_r;
    try (split; reflexivity);
    eexists; repeat split; reflexivity.
Qed.

(** [configure] is all or nothing on the store, for every adapter and
    whatever the user, the network, the tokenizer cache and the catalog do:
    when it rejects, the store is as it was and [set] was never called;
    when it resolves, [set] was called exactly once, under the nickname
    given, with a record that bears this nickname and the adapter's
    provider id, and every other nickname holds what it held. *)
Theorem configure_all_or_nothing (a : Adapter) (nick : string) (w : World) (st : State) :
  all_or_nothing a nick st (configure a nick w st) /\
  forall other, other <> nick ->
    store (final (configure a nick) w st) !! other = store st !! other.
Proof.
  pose proof (configure_outcome a nick w st) as H. split; [exact H|].
  intros other Hother. unfold all_or_nothing in H. unfold final.
  destruct (fst (configure a nick w st)).
  - destruct H as (c & -> & _). apply lookup_insert_ne. congruence.
  - destruct H as [-> _]. reflexivity.
Qed.

(** A configuration that went through can be used at once: constructing
    the same adapter under the same nickname resolves to an instance on the
    record just stored. *)
Theorem configure_then_construct (a : Adapter) (nick : string) (w : World) (st : State) :
  result (configure a nick) w st = Ok tt ->
  exists c,
    result (configure a nick ;;; construct a nick) w st =
      Ok {| config := c; tokenizer := None |} /\
    store (final (configure a nick) w st) !! nick = Some c /\
    nickname c = nick /\
    cfg_providerId c = providerId_of a.
Proof.
  intros Hres.
  pose proof (configure_outcome a nick w st) as H. unfold all_or_nothing in H.
  unfold result, final in *.
  destruct (configure a nick w st) as [[[]|e] s'] eqn:Hrun; [|discriminate Hres].
  cbn in H. destruct H as (c & Hstore & _ & Hnick & Hid).
  assert (Hlook : store s' !! nick = Some c) by (rewrite Hstore; apply lookup_insert_eq).
  exists c. unfold bind. rewrite Hrun. cbn [snd].
  repeat split; try assumption.
  destruct a; unfold construct, LlamaCpp.constructor, DeepSeek.constructor, Ollama.constructor;
    run; rewrite Hlook; reflexivity.
Qed.

Lemma configure_then_construct_witness :
  exists c,
    result (configure DeepSeekAdapter "hosted" ;;; construct DeepSeekAdapter "hosted")
      deepseek_world empty_state = Ok {| config := c; tokenizer := None |} /\
    cfg_providerId c = "deepseek-completion".
Proof.
  destruct (configure_then_construct DeepSeekAdapter "hosted" deepseek_world empty_state
              eq_refl) as (c & Hres & _ & _ & Hid).
  exists c. split; [exact Hres|exact Hid].
Defined.

(** Dismissing the prompt for the base URL makes [configure] reject with
    the cancellation message of that prompt before anything leaves the
    editor: up to then it has only logged, read the store and prompted.
    The same holds for the API key prompt of the DeepSeek adapter, after
    which the base URL is never asked for. *)
Theorem configure_cancelled (a : Adapter) (nick : string) (w : World) (st : State) :
  (showInputBox w (baseUrl_prompt a (store st !! nick)) = None ->
   (a = DeepSeekAdapter ->
    exists key, showInputBox w (apiKey_prompt (store st !! nick)) = Some key) ->
   result (configure a nick) w st = Throw (new_Error "User cancelled base URL input") /\
   store (final (configure a nick) w st) = store st /\
   wire (final (configure a nick) w st) = wire st /\
   exists l, trace (final (configure a nick) w st) = trace st ++ l /\ Forall is_quiet l) /\
  (showInputBox w (apiKey_prompt (store st !! nick)) = None ->
   result (DeepSeek.configure nick) w st =
     Throw (new_Error "User cancelled DeepSeek API key input") /\
   store (final (DeepSeek.configure nick) w st) = store st /\
   wire (final (DeepSeek.configure nick) w st) = wire st /\
   trace (final (DeepSeek.configure nick) w st) =
     trace st ++ [ELog Info; EStorageGet nick; ELog Debug;
                  EInputBox (apiKey_prompt (store st !! nick))]).
Proof.
  split.
  - intros Hurl Hkey.
    destruct a; unfold configure, LlamaCpp.configure, DeepSeek.configure,
      DeepSeek.getApiKeyInput, Ollama.configure, window_showInputBox; run.
    + unfold baseUrl_prompt in Hurl. destruct (store st !! nick); cbn in Hurl |- *;
        rewrite Hurl; cbn; repeat split; eexists;
        (split; [rewrite <- !app_assoc; reflexivity | repeat constructor]).
    + destruct (Hkey eq_refl) as (key & Hk).
      unfold baseUrl_prompt in Hurl. unfold apiKey_prompt in Hk.
      destruct (store st !! nick); cbn in Hurl, Hk |- *;
        rewrite Hk; cbn; rewrite Hurl; cbn; repeat split; eexists;
        (split; [rewrite <- !app_assoc; reflexivity | repeat constructor]).
    + unfold baseUrl_prompt in Hurl. rewrite Hurl. cbn. repeat split. eexists.
      split; [rewrite <- !app_assoc; reflexivity | repeat constructor].
  - intros Hk.
    unfold DeepSeek.configure, DeepSeek.getApiKeyInput, window_showInputBox; run.
    unfold apiKey_prompt in Hk |- *.
    destruct (store st !! nick); cbn in Hk |- *; rewrite Hk; cbn;
      rewrite <- !app_assoc; repeat split; reflexivity.
Qed.

Lemma configure_cancelled_witness :
  result (configure DeepSeekAdapter "hosted")
    {| http := fun _ _ => Ok (sample_response 200 "" JNull);
       OpenAI_constructor := fun _ => Ok tt;
       openai := fun _ _ _ => ([], Ok JNull);
       showInputBox := fun o =>
         if String.eqb (ib_title o) "Flexpilot: Enter your DeepSeek API key"
         then Some "sk-test" else None;
       showQuickPick := fun _ => None;
       Tokenizers_get := fun _ => Ok sample_tokenizer;
       Tokenizers_download := fun _ => Ok tt;
       getCompletionModelMetadata := fun _ => None |}
    empty_state = Throw (new_Error "User cancelled base URL input") /\
  result (DeepSeek.configure "hosted") dismissing_world empty_state =
    Throw (new_Error "User cancelled DeepSeek API key input").
Proof.
  split.
  - apply (proj1 (configure_cancelled DeepSeekAdapter "hosted"
                    {| http := fun _ _ => Ok (sample_response 200 "" JNull);
                       OpenAI_constructor := fun _ => Ok tt;
                       openai := fun _ _ _ => ([], Ok JNull);
                       showInputBox := fun o =>
                         if String.eqb (ib_title o) "Flexpilot: Enter your DeepSeek API key"
                         then Some "sk-test" else None;
                       showQuickPick := fun _ => None;
                       Tokenizers_get := fun _ => Ok sample_tokenizer;
                       Tokenizers_download := fun _ => Ok tt;
                       getCompletionModelMetadata := fun _ => None |}
                    empty_state)).
    + reflexivity.
    + intros _. exists "sk-test". reflexivity.
  - apply (proj2 (configure_cancelled DeepSeekAdapter "hosted" dismissing_world empty_state)).
    reflexivity.
Defined.

(** ** Configuration: the three flows *)

(** llama.cpp's [configure] probes the URL the user typed, trimmed, with
    one 3-token completion request.  On a 2xx answer it resolves and stores
    that URL with an empty model name and a context window of 32768; on any
    other answer it rejects with the status text and stores nothing. *)
Theorem llamacpp_configure_probe (nick : string) (w : World) (st : State)
    (input : string) (response : Response) :
  showInputBox w (baseUrl_prompt LlamaCppAdapter (store st !! nick)) = Some input ->
  http w (wire st) (llamacpp_probe (trim input)) = Ok response ->
  wire (final (LlamaCpp.configure nick) w st) = wire st ++ [llamacpp_probe (trim input)] /\
  (ok response = true ->
   result (LlamaCpp.configure nick) w st = Ok tt /\
   store (final (LlamaCpp.configure nick) w st) =
     <[nick := {| nickname := nick;
                  cfg_providerId := "llama.cpp-completion";
                  model := Some (JStr "");
                  contextWindow := 32768;
                  baseUrl := trim input;
                  apiKey := None |}]> (store st)) /\
  (ok response = false ->
   result (LlamaCpp.configure nick) w st =
     Throw (new_Error ("Connection test failed: " +:+ statusText response)) /\
   store (final (LlamaCpp.configure nick) w st) = store st).
Proof.
  intros Hurl Hhttp.
  unfold LlamaCpp.configure, window_showInputBox, progress_report. run.
  unfold baseUrl_prompt in Hurl.
  destruct (store st !! nick); cbn in Hurl |- *; rewrite Hurl; cbn;
    match goal with
    | |- context [http w (wire st) ?r] => change r with (llamacpp_probe (trim input))
    end;
    rewrite Hhttp; cbn;
    (split; [destruct (ok response); reflexivity|]);
    split; intros ->; cbn; split; reflexivity.
Qed.

Lemma llamacpp_configure_probe_witness :
  result (LlamaCpp.configure "local")
    (sample_world (sample_response 200 "" JNull) (Ok JNull)) empty_state = Ok tt /\
  store (final (LlamaCpp.configure "local")
           (sample_world (sample_response 200 "" JNull) (Ok JNull)) empty_state) =
    <[ "local" := sample_config ]> ∅.
Proof.
  exact (proj1 (proj2 (llamacpp_configure_probe "local"
                         (sample_world (sample_response 200 "" JNull) (Ok JNull)) empty_state
                         "http://localhost:8012" (sample_response 200 "" JNull)
                         eq_refl eq_refl))
               eq_refl).
Defined.

(** DeepSeek's [configure], once the user has given a key that the input
    box accepts (one that is not blank) and a base URL, the tokenizer of "deepseek-chat" is downloaded and the probe with the
    trimmed credentials has gone through, looks the model up in the
    catalog.  With an entry it resolves and stores the trimmed credentials,
    the model "deepseek-chat" and the entry's context window.  Without an
    entry it rejects and stores nothing, although the download and the
    probe have been made by then.  The key it probes with and stores is
    never empty. *)
Theorem deepseek_configure_probe (nick : string) (w : World) (st : State)
    (key input : string) (sent : list Request) (doc : json) :
  showInputBox w (apiKey_prompt (store st !! nick)) = Some key ->
  ib_validateInput (apiKey_prompt (store st !! nick)) key = None ->
  showInputBox w (baseUrl_prompt DeepSeekAdapter (store st !! nick)) = Some input ->
  Tokenizers_download w (Some (JStr "deepseek-chat")) = Ok tt ->
  OpenAI_constructor w {| client_apiKey := Some (trim key); client_baseURL := trim input |}
    = Ok tt ->
  openai w (wire st) {| client_apiKey := Some (trim key); client_baseURL := trim input |}
    deepseek_probe_params = (sent, Ok doc) ->
  (forall md,
     getCompletionModelMetadata w (Some (JStr "deepseek-chat")) = Some md ->
     result (DeepSeek.configure nick) w st = Ok tt /\
     store (final (DeepSeek.configure nick) w st) =
       <[nick := {| nickname := nick;
                    cfg_providerId := "deepseek-completion";
                    model := Some (JStr "deepseek-chat");
                    contextWindow := md_contextWindow md;
                    baseUrl := trim input;
                    apiKey := Some (trim key) |}]> (store st)) /\
  (getCompletionModelMetadata w (Some (JStr "deepseek-chat")) = None ->
   result (DeepSeek.configure nick) w st = Throw (new_Error "Unable to find model metadata") /\
   store (final (DeepSeek.configure nick) w st) = store st /\
   downloads (trace (final (DeepSeek.configure nick) w st)) =
     downloads (trace st) ++ [Some (JStr "deepseek-chat")] /\
   completions (trace (final (DeepSeek.configure nick) w st)) =
     completions (trace st) ++
     [({| client_apiKey := Some (trim key); client_baseURL := trim input |},
       deepseek_probe_params, None)]) /\
  trim key <> "".
Proof.
  intros Hkey Hvalid Hurl Hdl Hnew Hcall.
  assert (Hfilled : trim key <> "").
  { intros Hblank. destruct (store st !! nick); cbn in Hvalid;
      unfold DeepSeek.validateApiKey in Hvalid; rewrite Hblank in Hvalid; discriminate. }
  unfold DeepSeek.configure, DeepSeek.getApiKeyInput, window_showInputBox,
    Tokenizers_download_, progress_report, lookup_metadata. run.
  unfold apiKey_prompt in Hkey. unfold baseUrl_prompt in Hurl.
  destruct (store st !! nick); cbn in Hkey, Hurl |- *;
    rewrite Hkey; cbn; rewrite Hurl; cbn; rewrite Hdl; cbn; rewrite Hnew; cbn;
    match goal with
    | |- context [openai w (wire st) ?c ?r] => change r with deepseek_probe_params
    end;
    rewrite Hcall; cbn;
    (split; [intros md -> | split; [intros ->|exact Hfilled]]); cbn; tidy;
    repeat split; reflexivity.
Qed.

Lemma deepseek_configure_probe_witness :
  result (DeepSeek.configure "hosted") deepseek_world empty_state = Ok tt /\
  store (final (DeepSeek.configure "hosted") deepseek_world empty_state) =
    <[ "hosted" := deepseek_config "deepseek-chat" ]> ∅.
Proof.
  exact (proj1 (deepseek_configure_probe "hosted" deepseek_world empty_state
                  "sk-test" "https://api.deepseek.com/beta" []
                  (JObj [("choices", JArr [JObj [("text", JStr " are")]])])
                  eq_refl eq_refl eq_refl eq_refl eq_refl eq_refl)
               {| md_contextWindow := 65536 |} eq_refl).
Defined.

(** ** Configuration: Ollama's model list *)


(** The scan of a list of well-named entries: the items picked are the
    recognized ones, in order, after those already there; the map stays
    sound and complete for them. *)
Lemma scan_models_run (w : World) (modelsList : list json) :
  Forall well_named modelsList ->
  forall items cw st,
    windows_sound w cw ->
    windows_complete w items cw ->
    exists cw' l,
      Ollama.scan_models modelsList items cw w st =
        (Ok (items ++ recognized_items w modelsList, cw'),
         {| store := store st; wire := wire st; trace := trace st ++ l |}) /\
      Forall is_quiet l /\
      windows_sound w cw' /\
      windows_complete w (items ++ recognized_items w modelsList) cw'.
Proof.
  induction 1 as [|model rest [Hnn Htext] _ IH]; intros items cw st Hsound Hcomplete.
  - exists cw, []. cbn. rewrite !app_nil_r. destruct st; auto.
  - cbn [Ollama.scan_models recognized_items omap list_omap]. unfold lookup_metadata.
    unfold_monad. rewrite (prop_not_null model "name" Hnn). cbn -[prop_opt to_text].
    rewrite Htext. cbn -[prop_opt].
    set (name := prop_opt (Some model) "name").
    destruct (getCompletionModelMetadata w name) as [md|] eqn:Hmd.
    + set (cw1 := if (md_contextWindow md =? 0)%Z then cw
                  else (name, md_contextWindow md) :: cw).
      assert (Hsound1 : windows_sound w cw1).
      { subst cw1. destruct (Z.eqb_spec (md_contextWindow md) 0); [exact Hsound|].
        constructor; [|exact Hsound]. exists md. auto. }
      assert (Hcomplete1 : windows_complete w (items ++ [{| label := name |}]) cw1).
      { apply Forall_app. split.
        - eapply Forall_impl; [exact Hcomplete|].
          intros item Hitem md' Hmd' Hnz. subst cw1.
          destruct (md_contextWindow md =? 0)%Z; [|right]; auto.
        - constructor; [|constructor].
          intros md' Hmd' Hnz.
          change (getCompletionModelMetadata w name = Some md') in Hmd'.
          rewrite Hmd in Hmd'. injection Hmd' as <-.
          subst cw1. destruct (Z.eqb_spec (md_contextWindow md) 0); [contradiction|].
          left. reflexivity. }
      destruct (IH (items ++ [{| label := name |}]) cw1
                  {| store := store st; wire := wire st; trace := trace st ++ [ELog Debug] |}
                  Hsound1 Hcomplete1) as (cw' & l & Hrun & Hq & Hs & Hc).
      exists cw', (ELog Debug :: l).
      fold (recognized_items w rest).
      rewrite <- app_assoc in Hrun, Hc. cbn in Hrun, Hc |- *.
      rewrite Hrun, <- app_assoc. cbn. repeat split; auto. constructor; [exact I|exact Hq].
    + destruct (IH items cw
                  {| store := store st; wire := wire st; trace := trace st ++ [ELog Debug] |}
                  Hsound Hcomplete) as (cw' & l & Hrun & Hq & Hs & Hc).
      exists cw', (ELog Debug :: l).
      fold (recognized_items w rest).
      cbn in Hrun |- *. rewrite Hrun, <- app_assoc. cbn. repeat split; auto.
      constructor; [exact I|exact Hq].
Qed.



Lemma length_not_nil {A} (l : list A) : l <> [] -> Nat.eqb (length l) 0 = false.
Proof. destruct l; [congruence|reflexivity]. Qed.

Ltac quiet_ollama :=
  cbn -[prop iterate Ollama.scan_models recognized_items trim Ollama.map_get to_text].

(** Run Ollama's [configure] up to the pick. *)
Ltac ollama_to_pick Hinput Hhttp Hok Hjson Hmodels Hiter Hnn Hne :=
  unfold Ollama.configure, window_showInputBox, window_showQuickPick, Tokenizers_download_,
    progress_report; unfold_monad; quiet_ollama;
  rewrite Hinput; quiet_ollama; rewrite Hhttp; quiet_ollama;
  rewrite Hok, Hjson; quiet_ollama; rewrite Hmodels; quiet_ollama;
  rewrite Hiter; quiet_ollama;
  match goal with
  | |- context [Ollama.scan_models ?ms [] [] ?w ?s] =>
      let cw := fresh "cw" in
      let l := fresh "l" in
      let Hrun := fresh "Hrun" in
      let Hq := fresh "Hq" in
      let Hsound := fresh "Hsound" in
      let Hcomplete := fresh "Hcomplete" in
      destruct (scan_models_run w ms Hnn [] [] s
                  ltac:(constructor) ltac:(constructor))
        as (cw & l & Hrun & Hq & Hsound & Hcomplete);
      rewrite Hrun; quiet_ollama;
      rewrite (length_not_nil _ Hne); quiet_ollama;
      pose proof (quiet_events l Hq) as (? & ? & ? & ?)
  end.

(** With a 2xx model list whose entries are well named (objects whose name
    has a text) and of which the catalog recognizes at least one, Ollama's
    [configure] offers the user
    exactly one item for each recognized entry, named as the entry is and
    in the order of the list.  When the user dismisses the pick,
    [configure] rejects: no tokenizer is downloaded, nothing is stored, and
    the list request is the only one made. *)
Theorem ollama_configure_pick (nick : string) (w : World) (st : State)
    (input : string) (response : Response) (data : json) (models : jsval)
    (modelsList : list json) :
  showInputBox w (Ollama.baseUrl_input (store st !! nick)) = Some input ->
  http w (wire st) (Ollama.tags_request (trim input)) = Ok response ->
  ok response = true ->
  body_json response = Ok data ->
  prop (Some data) "models" = Ok models ->
  iterate (if truthy models then models else Some (JArr [])) = Ok modelsList ->
  Forall well_named modelsList ->
  recognized_items w modelsList <> [] ->
  In (EQuickPick (recognized_items w modelsList))
     (trace (final (Ollama.configure nick) w st)) /\
  (showQuickPick w (recognized_items w modelsList) = None ->
   result (Ollama.configure nick) w st = Throw (new_Error "User cancelled model selection") /\
   downloads (trace (final (Ollama.configure nick) w st)) = downloads (trace st) /\
   store (final (Ollama.configure nick) w st) = store st /\
   wire (final (Ollama.configure nick) w st) = wire st ++ [Ollama.tags_request (trim input)]).
Proof.
  intros Hinput Hhttp Hok Hjson Hmodels Hiter Hnn Hne.
  split.
  - ollama_to_pick Hinput Hhttp Hok Hjson Hmodels Hiter Hnn Hne.
    repeat quiet_branch; cbn [snd trace]; rewrite ?in_app_iff; cbn; tauto.
  - intros Hpick.
    ollama_to_pick Hinput Hhttp Hok Hjson Hmodels Hiter Hnn Hne.
    rewrite Hpick. cbn. tidy.
    repeat match goal with H : downloads _ = [] |- _ => rewrite H end.
    rewrite ?app_nil_r. auto.
Qed.

Lemma ollama_configure_pick_witness :
  In (EQuickPick [{| label := Some (JStr "llama3:8b") |}])
     (trace (final (Ollama.configure "coder") ollama_world empty_state)).
Proof.
  refine (proj1 (ollama_configure_pick "coder" ollama_world empty_state
                   "  http://localhost:11434 " (sample_response 200 "" tags_body) tags_body
                   (Some (JArr [JObj [("name", JStr "llama3:8b"); ("size", JInt 4661224676)];
                                JObj [("name", JStr "mistral:7b"); ("size", JInt 4109865159)]]))
                   [JObj [("name", JStr "llama3:8b"); ("size", JInt 4661224676)];
                    JObj [("name", JStr "mistral:7b"); ("size", JInt 4109865159)]]
                   eq_refl eq_refl eq_refl eq_refl eq_refl eq_refl _ _)).
  - repeat constructor; discriminate.
  - discriminate.
Defined.



(** ** llama.cpp: a truncated completion *)

(** A 2xx answer of the declared type that says [truncated: true] does not
    make llama.cpp's [invoke] fail: the call resolves as it would without
    the flag, and the flag shows only as a warning in the log, which is
    written exactly when the flag is [true]. *)
Theorem llamacpp_invoke_truncated (this : Provider) (options : InvokeOptions)
    (w : World) (st : State) (response : Response) (doc : json) :
  is_aborted (opt_signal options) = false ->
  http w (wire st) (LlamaCpp.infill_request this options) = Ok response ->
  ok response = true ->
  body_json response = Ok doc ->
  LlamaCppInfillResponse doc = true ->
  result (LlamaCpp.invoke this options) w st =
    Ok (match prop_opt (Some doc) "content" with Some (JStr c) => c | _ => "" end) /\
  exists l,
    trace (final (LlamaCpp.invoke this options) w st) = trace st ++ l /\
    (In (ELog Warn) l <-> prop_opt (Some doc) "truncated" = Some (JBool true)).
Proof.
  intros Hsig Hhttp Hok Hjson Hty.
  destruct doc as [| | | | |o]; try discriminate.
  unfold result, final.
  rewrite (llamacpp_invoke_typed this options w st response o Hsig Hhttp Hok Hjson Hty).
  cbn [fst snd trace prop_opt]. split; [reflexivity|].
  eexists. split; [reflexivity|].
  rewrite !in_app_iff.
  destruct (infill_response_truncated o Hty) as [Hr|([] & Hr)]; rewrite Hr; cbn;
    destruct (truthy (assoc "timings" o)); cbn; split; intros H;
    repeat match goal with
           | H : _ \/ _ |- _ => destruct H
           | H : False |- _ => contradiction
           end;
    try discriminate; auto.
Qed.

Lemma llamacpp_invoke_truncated_witness :
  result (LlamaCpp.invoke sample_provider (sample_options None))
    (sample_world (sample_response 200 ""
                     (JObj [("content", JStr "return a"); ("truncated", JBool true)]))
       (Ok JNull))
    empty_state = Ok "return a" /\
  In (ELog Warn)
     (trace (final (LlamaCpp.invoke sample_provider (sample_options None))
               (sample_world (sample_response 200 ""
                                (JObj [("content", JStr "return a"); ("truncated", JBool true)]))
                  (Ok JNull))
               empty_state)).
Proof.
  destruct (llamacpp_invoke_truncated sample_provider (sample_options None)
              (sample_world (sample_response 200 ""
                               (JObj [("content", JStr "return a"); ("truncated", JBool true)]))
                 (Ok JNull))
              empty_state
              (sample_response 200 ""
                 (JObj [("content", JStr "return a"); ("truncated", JBool true)]))
              (JObj [("content", JStr "return a"); ("truncated", JBool true)])
              eq_refl eq_refl eq_refl eq_refl eq_refl) as (Hres & l & Htrace & Hwarn).
  split; [exact Hres|]. rewrite Htrace. apply in_or_app. right. apply Hwarn. reflexivity.
Defined.
